(** * VitalLens: the measurement page (frontend/static/js/home.js)

    A shallow embedding of the page script: the DOM properties it reads and
    writes, its four script-level variables, the browser's timer table and
    the asynchronous operations it leaves pending.  Every handler of the
    script is a function on that state; the browser is the environment and
    chooses the next event. *)

From Stdlib Require Import ZArith Ascii String DecimalString Floats.
From stdpp Require Import gmap strings list.

#[local] Set Warnings "-register-all".

Open Scope Z_scope.

(** ** JavaScript values *)

Module JS.

(** Primitive values.  A Number is an IEEE 754 binary64 value; a String is
    held as the bytes of its UTF-8 encoding. *)
Inductive Prim : Type :=
| Undefined
| Null
| Bool (b : bool)
| Number (x : float)
| Str (s : string).

(** Values as [JSON.parse] builds them: primitives, arrays, and plain
    objects given by their own properties (a key listed twice stands for
    its first entry).  Such objects have no callable property of their own
    and inherit from [Object.prototype] or [Array.prototype] only. *)
Inductive Value : Type :=
| Primitive (p : Prim)
| Array (items : list Value)
| Object (props : list (string * Value)).

(** An Error object: its constructor name and its [message]. *)
Record Error : Type := mkError { err_name : string; err_message : string }.

#[global] Instance Error_eq_dec : EqDecision Error.
Proof. solve_decision. Defined.

#[global] Instance Prim_null_dec (p : Prim) : Decision (p = Null).
Proof. destruct p; (by left) || (by right). Defined.

(** A Number as a value. *)
Definition num (x : float) : Value := Primitive (Number x).

(** *** Numbers and their decimal spelling *)

(** [n / d] rounded to the nearest integer, a tie going to the even one
    ([0 ≤ n], [0 < d]). *)
Definition round_half_even (n d : Z) : Z :=
  let m := n / d in
  match 2 * (n mod d) ?= d with
  | Lt => m
  | Gt => m + 1
  | Eq => if Z.even m then m else m + 1
  end.

Definition signed_zero (neg : bool) : float :=
  if neg then neg_zero else zero.

Definition signed_infinity (neg : bool) : float :=
  if neg then neg_infinity else infinity.

(** The Number value for the rational [p / q] with sign [neg] ([0 ≤ p],
    [0 < q]): the binary64 value nearest to it, a tie going to the even
    significand, infinite from [2^1024 - 2^970] on. *)
Definition nearest (neg : bool) (p q : Z) : float :=
  if p =? 0 then signed_zero neg
  else
    let e0 := Z.log2 p - Z.log2 q in
    let above :=
      if 0 <=? e0 then q * 2 ^ e0 <=? p else q <=? p * 2 ^ (- e0) in
    let e := if above then e0 else e0 - 1 in     (* 2^e ≤ p/q < 2^(e+1) *)
    let sh := Z.max (e - 52) (-1074) in
    let m :=
      if 0 <=? sh then round_half_even p (q * 2 ^ sh)
      else round_half_even (p * 2 ^ (- sh)) q in
    if m =? 0 then signed_zero neg
    else if 1024 <=? Z.log2 m + sh then signed_infinity neg
    else SF2Prim (S754_finite neg (Z.to_pos m) sh).

(** The Number value of an integer. *)
Definition of_Z (z : Z) : float := nearest (z <? 0) (Z.abs z) 1.

Definition digits (n : Z) : string := NilZero.string_of_int (Z.to_int n).

Fixpoint zeros (n : nat) : string :=
  match n with
  | O => ""
  | S n' => String "0" (zeros n')
  end.

(** [p / q * 10^(-j)] as a fraction. *)
Definition scale10 (p q j : Z) : Z * Z :=
  if 0 <=? j then (p, q * 10 ^ j) else (p * 10 ^ (- j), q).

Fixpoint first_above (fuel : nat) (p q n : Z) : Z :=
  match fuel with
  | O => n
  | S fuel' =>
      let '(a, b) := scale10 p q n in
      if b <=? a then first_above fuel' p q (n + 1) else n
  end.

(** The [n] with [10^(n-1) ≤ p/q < 10^n] ([0 < p], [0 < q]). *)
Definition magnitude (p q : Z) : Z :=
  first_above 8 p q ((Z.log2 p - Z.log2 q) * 30103 / 100000 - 3).

(** Does the decimal [s × 10^(n-k)] denote the Number [x]. *)
Definition denotes (x : float) (s k n : Z) : bool :=
  let '(a, b) := scale10 s 1 (k - n) in
  PrimFloat.Leibniz.eqb (nearest false a b) x.

(** Number::toString, step 5: integers [s], [k], [n] with
    [10^(k-1) ≤ s < 10^k] such that [s × 10^(n-k)] denotes [x = p/q] and
    [k] is as small as possible; among several such [s], the one nearest to
    [x], and the even one of two equally near.  Seventeen digits always
    suffice. *)
Fixpoint shortest (fuel : nat) (x : float) (p q n0 k : Z) : Z * Z * Z :=
  let '(a, b) := scale10 p q (n0 - k) in
  let lo := a / b in
  let r := a mod b in
  let '(hi, nhi) :=
    if lo + 1 =? 10 ^ k then (10 ^ (k - 1), n0 + 1) else (lo + 1, n0) in
  let nearer :=
    match 2 * r ?= b with
    | Lt => (lo, k, n0)
    | Gt => (hi, k, nhi)
    | Eq => if Z.even lo then (lo, k, n0) else (hi, k, nhi)
    end in
  match fuel with
  | O => nearer
  | S fuel' =>
      match denotes x lo k n0, negb (r =? 0) && denotes x hi k nhi with
      | true, true => nearer
      | true, false => (lo, k, n0)
      | false, true => (hi, k, nhi)
      | false, false => shortest fuel' x p q n0 (k + 1)
      end
  end.

(** Number::toString, steps 6 to 10: the digits of [s] laid out by [n]. *)
Definition layout (s k n : Z) : string :=
  let ds := digits s in
  if (k <=? n) && (n <=? 21) then ds +:+ zeros (Z.to_nat (n - k))
  else if (0 <? n) && (n <=? 21) then
    substring 0 (Z.to_nat n) ds +:+ "." +:+
    substring (Z.to_nat n) (Z.to_nat (k - n)) ds
  else if (-6 <? n) && (n <=? 0) then "0." +:+ zeros (Z.to_nat (- n)) +:+ ds
  else
    let e := n - 1 in
    let exponent := (if 0 <=? e then "+" else "-") +:+ digits (Z.abs e) in
    if k =? 1 then ds +:+ "e" +:+ exponent
    else substring 0 1 ds +:+ "." +:+ substring 1 (Z.to_nat (k - 1)) ds +:+
         "e" +:+ exponent.

(** [Number::toString(x)], radix 10. *)
Definition NumberToString (x : float) : string :=
  match Prim2SF x with
  | S754_nan => "NaN"
  | S754_zero _ => "0"
  | S754_infinity neg => if neg then "-Infinity" else "Infinity"
  | S754_finite neg m e =>
      let '(p, q) :=
        if 0 <=? e then (Z.pos m * 2 ^ e, 1) else (Z.pos m, 2 ^ (- e)) in
      let '(s, k, n) := shortest 16 (abs x) p q (magnitude p q) 1 in
      (if neg then "-" else "") +:+ layout s k n
  end.

(** *** Strings as numbers *)

(** Does [s] begin with a StrWhiteSpaceChar (white space or a line
    terminator), and what follows it.  Beyond ASCII these are U+00A0,
    U+1680, U+2000 to U+200A, U+2028, U+2029, U+202F, U+205F, U+3000 and
    U+FEFF, here in UTF-8. *)
Definition skip_ws_char (s : string) : option string :=
  match s with
  | String c s1 =>
      let n := nat_of_ascii c in
      if bool_decide (n ∈ [9; 10; 11; 12; 13; 32]%nat) then Some s1
      else
        match s1 with
        | String c2 s2 =>
            let n2 := nat_of_ascii c2 in
            if bool_decide (n = 194 ∧ n2 = 160)%nat then Some s2
            else
              match s2 with
              | String c3 s3 =>
                  let n3 := nat_of_ascii c3 in
                  if bool_decide
                       ((n, n2, n3) ∈
                          [(225, 154, 128); (226, 128, 168); (226, 128, 169);
                           (226, 128, 175); (226, 129, 159); (227, 128, 128);
                           (239, 187, 191)]%nat
                        ∨ (n = 226 ∧ n2 = 128 ∧ 128 ≤ n3 ≤ 138)%nat)
                  then Some s3
                  else None
              | EmptyString => None
              end
        | EmptyString => None
        end
  | EmptyString => None
  end.

Fixpoint drop_ws (fuel : nat) (s : string) : string :=
  match fuel with
  | O => s
  | S fuel' =>
      match skip_ws_char s with
      | Some s' => drop_ws fuel' s'
      | None => s
      end
  end.

Definition all_ws (s : string) : bool :=
  String.eqb (drop_ws (String.length s) s) "".

Fixpoint drop_ws_end (s : string) : string :=
  if all_ws s then ""
  else
    match s with
    | String c s' => String c (drop_ws_end s')
    | EmptyString => ""
    end.

Definition trim (s : string) : string :=
  drop_ws_end (drop_ws (String.length s) s).

Definition digit_of (radix : Z) (c : ascii) : option Z :=
  let n := Z.of_nat (nat_of_ascii c) in
  let d :=
    if (48 <=? n) && (n <=? 57) then n - 48
    else if (97 <=? n) && (n <=? 102) then n - 87
    else if (65 <=? n) && (n <=? 70) then n - 55
    else radix in
  if d <? radix then Some d else None.

(** The longest run of digits [s] begins with: their value continuing
    [acc], how many they are, and what follows. *)
Fixpoint span_digits (radix : Z) (acc : Z) (count : Z) (s : string)
  : Z * Z * string :=
  match s with
  | String c s' =>
      match digit_of radix c with
      | Some d => span_digits radix (radix * acc + d) (count + 1) s'
      | None => (acc, count, s)
      end
  | EmptyString => (acc, count, s)
  end.

(** NonDecimalIntegerLiteral after its prefix: digits to the end. *)
Definition radix_literal (radix : Z) (s : string) : float :=
  match span_digits radix 0 0 s with
  | (v, count, EmptyString) => if 0 <? count then nearest false v 1 else nan
  | _ => nan
  end.

(** ExponentPart: [e] or [E], an optional sign, digits to the end; no
    exponent at all counts as 0. *)
Definition exponent_part (s : string) : option Z :=
  match s with
  | EmptyString => Some 0
  | String c s1 =>
      if bool_decide (c = "e"%char ∨ c = "E"%char) then
        let '(neg, s2) :=
          match s1 with
          | String "+"%char s2 => (false, s2)
          | String "-"%char s2 => (true, s2)
          | _ => (false, s1)
          end in
        match span_digits 10 0 0 s2 with
        | (v, count, EmptyString) =>
            if 0 <? count then Some (if neg then - v else v) else None
        | _ => None
        end
      else None
  end.

(** The Number for [d × 10^e], [d] having at most [len] digits.  Far
    outside the range of the format the power is not computed. *)
Definition decimal_value (neg : bool) (d len e : Z) : float :=
  if d =? 0 then signed_zero neg
  else if 310 <? e then signed_infinity neg
  else if e + len <? -330 then signed_zero neg
  else
    let '(a, b) := scale10 d 1 (- e) in
    nearest neg a b.

(** StrUnsignedDecimalLiteral: [Infinity], or digits with an optional
    fraction and exponent, or a fraction with an optional exponent. *)
Definition unsigned_decimal (neg : bool) (s : string) : float :=
  if String.eqb s "Infinity" then signed_infinity neg
  else
    let '(int, int_len, s1) := span_digits 10 0 0 s in
    let '(all, frac_len, s2) :=
      match s1 with
      | String "."%char s' => span_digits 10 int 0 s'
      | _ => (int, 0, s1)
      end in
    if (int_len + frac_len =? 0) then nan
    else
      match exponent_part s2 with
      | Some e => decimal_value neg all (int_len + frac_len) (e - frac_len)
      | None => nan
      end.

(** StringToNumber: the Number a string spells, NaN when it spells none.
    Surrounding white space is ignored, and an empty string is zero.  The
    decimal is rounded to the nearest Number even beyond twenty significant
    digits, where the language leaves engines a choice. *)
Definition StringToNumber (s : string) : float :=
  match trim s with
  | EmptyString => zero
  | String "0"%char (String c s') as t =>
      if bool_decide (c = "x"%char ∨ c = "X"%char) then radix_literal 16 s'
      else if bool_decide (c = "o"%char ∨ c = "O"%char) then radix_literal 8 s'
      else if bool_decide (c = "b"%char ∨ c = "B"%char) then radix_literal 2 s'
      else unsigned_decimal false t
  | String "+"%char s' => unsigned_decimal false s'
  | String "-"%char s' => unsigned_decimal true s'
  | t => unsigned_decimal false t
  end.

(** *** Conversions *)

(** ToString on a primitive, as a template literal applies it. *)
Definition PrimToString (p : Prim) : string :=
  match p with
  | Undefined => "undefined"
  | Null => "null"
  | Bool true => "true"
  | Bool false => "false"
  | Number x => NumberToString x
  | Str s => s
  end.

(** ToNumber on a primitive. *)
Definition PrimToNumber (p : Prim) : float :=
  match p with
  | Undefined => nan
  | Null => zero
  | Bool true => one
  | Bool false => zero
  | Number x => x
  | Str s => StringToNumber s
  end.

(** ToBoolean: [undefined], [null], [false], the zeros, NaN and the empty
    string are falsy; every array and object is truthy. *)
Definition ToBoolean (v : Value) : bool :=
  match v with
  | Primitive Undefined | Primitive Null => false
  | Primitive (Bool b) => b
  | Primitive (Number x) => negb (is_zero x || is_nan x)
  | Primitive (Str s) => negb (String.eqb s "")
  | Array _ | Object _ => true
  end.

(** Own-property lookup in a parsed object. *)
Fixpoint own_prop (props : list (string * Value)) (k : string) : Value :=
  match props with
  | [] => Primitive Undefined
  | (k', v) :: rest => if String.eqb k' k then v else own_prop rest k
  end.

Definition has_own (props : list (string * Value)) (k : string) : bool :=
  existsb (λ kv, String.eqb kv.1 k) props.

(** What V8 throws when neither [toString] nor [valueOf] yields a
    primitive. *)
Definition cannot_convert : Error :=
  mkError "TypeError" "Cannot convert object to primitive value".

(** ToPrimitive.  An array goes through [Array.prototype.join]: its
    elements' strings separated by commas, [null] and [undefined] giving the
    empty string.  An object goes through [Object.prototype.toString],
    unless a property of its own named [toString] hides that method: a
    parsed value is not callable, [Object.prototype.valueOf] returns the
    object itself, and the conversion throws.  On these values the string
    hint (a template literal) and the number hint (a comparison) agree. *)
Fixpoint ToPrimitive (v : Value) : Error + Prim :=
  match v with
  | Primitive p => inr p
  | Array items =>
      match
        (fix join (items : list Value) : Error + string :=
           match items with
           | [] => inr ""
           | item :: rest =>
               match
                 match item with
                 | Primitive Undefined | Primitive Null => inr (Str "")
                 | _ => ToPrimitive item
                 end
               with
               | inl e => inl e
               | inr p =>
                   match join rest with
                   | inl e => inl e
                   | inr s =>
                       inr (PrimToString p +:+
                            match rest with
                            | [] => ""
                            | _ :: _ => "," +:+ s
                            end)
                   end
               end
           end) items
      with
      | inl e => inl e
      | inr s => inr (Str s)
      end
  | Object props =>
      if has_own props "toString" then inl cannot_convert
      else inr (Str "[object Object]")
  end.

(** The abstract operation ToString. *)
Definition ToString (v : Value) : Error + string :=
  match ToPrimitive v with
  | inl e => inl e
  | inr p => inr (PrimToString p)
  end.

(** The abstract operation ToNumber. *)
Definition ToNumber (v : Value) : Error + float :=
  match ToPrimitive v with
  | inl e => inl e
  | inr p => inr (PrimToNumber p)
  end.

(** [v > k] for a numeric literal [k]: the right operand is a number, so
    the comparison is numeric, and any comparison with NaN is false. *)
Definition gt (v : Value) (k : float) : Error + bool :=
  match ToNumber v with
  | inl e => inl e
  | inr x => inr (k <? x)%float
  end.

(** [a || b] on the outcomes of two comparisons: [b] is evaluated only
    when [a] is false. *)
Definition or_else (a : Error + bool) (b : Error + bool) : Error + bool :=
  match a with
  | inr false => b
  | _ => a
  end.

(** The text V8 gives the TypeError raised by reading a property of null. *)
Definition null_read_error (k : string) : Error :=
  mkError "TypeError"
    ("Cannot read properties of null (reading '" +:+ k +:+ "')").

(** [v.k] for one of the property names the script reads ([heart_rate],
    [systolic_bp], [diastolic_bp], [error]): a TypeError on [null] and
    [undefined], the own property of an object, and [undefined] where
    neither the value nor its prototype has such a property (the other
    primitives, arrays, and objects without it). *)
Definition get (v : Value) (k : string) : Error + Value :=
  match v with
  | Primitive Null => inl (null_read_error k)
  | Primitive Undefined =>
      inl (mkError "TypeError"
             ("Cannot read properties of undefined (reading '" +:+ k +:+ "')"))
  | Primitive _ | Array _ => inr (Primitive Undefined)
  | Object props => inr (own_prop props k)
  end.

(** Tokens of a class attribute: maximal runs without ASCII white space. *)
Definition is_ascii_ws (c : ascii) : bool :=
  let n := nat_of_ascii c in
  bool_decide (n ∈ [9; 10; 12; 13; 32]%nat).

Fixpoint tokens_from (cur : string) (s : string) : list string :=
  match s with
  | EmptyString => if String.eqb cur "" then [] else [cur]
  | String c s' =>
      if is_ascii_ws c
      then (if String.eqb cur "" then [] else [cur]) ++ tokens_from "" s'
      else tokens_from (cur +:+ String c "") s'
  end.

Definition tokens (s : string) : list string := tokens_from "" s.

(** [element.classList.contains(tok)] for an element whose [className] is
    [cls]. *)
Definition classList_contains (cls tok : string) : bool :=
  bool_decide (tok ∈ tokens cls).

(** [hay.includes(needle)]. *)
Fixpoint includes (hay needle : string) : bool :=
  String.prefix needle hay ||
  match hay with
  | EmptyString => false
  | String _ hay' => includes hay' needle
  end.

End JS.

(** ** The page, the script's variables and the browser's pending work *)

(** A Blob: its MIME type and its bytes. *)
Record Blob : Type := mkBlob { blob_type : string; blob_data : list Byte.byte }.

Definition blob_size (b : Blob) : Z := Z.of_nat (length (blob_data b)).

(** [new Blob(parts, { type })]: the parts' bytes, in order. *)
Definition new_Blob (parts : list Blob) (type : string) : Blob :=
  mkBlob type (concat (blob_data <$> parts)).

(** [MediaRecorder.state]. *)
Inductive RecordingState : Type := inactive | recording | paused.

(** The face-presence signal of the specification. *)
Inductive DetectionSignal : Type := Unknown | FacePresent | FaceAbsent.

#[global] Instance RecordingState_eq_dec : EqDecision RecordingState.
Proof. solve_decision. Defined.

#[global] Instance DetectionSignal_eq_dec : EqDecision DetectionSignal.
Proof. solve_decision. Defined.

(** The properties of the DOM elements the script touches (lines 3-12). *)
Record Page : Type := mkPage {
  statusText : string;                 (* statusText.textContent *)
  faceIndicator_textContent : string;
  faceIndicator_className : string;
  resultsPlaceholder_display : string; (* resultsPlaceholder.style.display *)
  resultsGrid_display : string;
  predictBtn_disabled : bool;
  hrValue : string;                    (* hrValueElement.textContent *)
  bpValue : string;
  stressValue : string;
  webcam_readyState : Z                (* webcamElement.readyState *)
}.

(** What a timer runs.  The countdown closure carries its own [countdown]
    variable (line 107). *)
Inductive Callback : Type :=
| CbDetectFace                        (* line 55 and line 143 *)
| CbRevertStatus                      (* lines 93-97 *)
| CbCountdown (countdown : Z)         (* lines 110-114 *)
| CbStopRecorder.                     (* lines 117-122 *)

(** A pending timer: when it is due, its period when it came from
    [setInterval], and its callback. *)
Record Timer : Type := mkTimer {
  due : Z;
  period : option Z;
  callback : Callback
}.

#[global] Instance Callback_eq_dec : EqDecision Callback.
Proof. solve_decision. Defined.

#[global] Instance Timer_eq_dec : EqDecision Timer.
Proof. solve_decision. Defined.

(** Calls the script makes on its collaborators, in the order made. *)
Inductive Effect : Type :=
| ConsoleError (label : string) (e : JS.Error)
| EstimateFaces
| RecorderStart
| RecorderStop
| Fetch (url method field : string) (payload : Blob) (filename : string)
| Uncaught (e : JS.Error).

Record State : Type := mkState {
  page : Page;
  (* lines 15-18 *)
  mediaRecorder : option RecordingState;  (* [None]: still undefined *)
  recordedChunks : list Blob;
  faceCheckInterval : option nat;
  model : bool;                           (* is [model] truthy *)
  (* the browser *)
  now : Z;                                (* milliseconds *)
  next_timer : nat;                       (* the next timer id to hand out *)
  timers : gmap nat Timer;
  detecting : nat;                        (* estimateFaces calls in flight *)
  stop_queued : bool;                     (* stop() called, onstop not yet run *)
  fetching : nat;                         (* fetches in flight *)
  log : list Effect
}.

(** *** Field updates *)

Definition set_statusText (v : string) (p : Page) : Page :=
  mkPage v (faceIndicator_textContent p) (faceIndicator_className p)
    (resultsPlaceholder_display p) (resultsGrid_display p)
    (predictBtn_disabled p) (hrValue p) (bpValue p) (stressValue p)
    (webcam_readyState p).

Definition set_faceIndicator (text cls : string) (p : Page) : Page :=
  mkPage (statusText p) text cls
    (resultsPlaceholder_display p) (resultsGrid_display p)
    (predictBtn_disabled p) (hrValue p) (bpValue p) (stressValue p)
    (webcam_readyState p).

Definition set_faceIndicator_textContent (text : string) (p : Page) : Page :=
  set_faceIndicator text (faceIndicator_className p) p.

Definition set_resultsPlaceholder_display (v : string) (p : Page) : Page :=
  mkPage (statusText p) (faceIndicator_textContent p)
    (faceIndicator_className p) v (resultsGrid_display p)
    (predictBtn_disabled p) (hrValue p) (bpValue p) (stressValue p)
    (webcam_readyState p).

Definition set_resultsGrid_display (v : string) (p : Page) : Page :=
  mkPage (statusText p) (faceIndicator_textContent p)
    (faceIndicator_className p) (resultsPlaceholder_display p) v
    (predictBtn_disabled p) (hrValue p) (bpValue p) (stressValue p)
    (webcam_readyState p).

Definition set_predictBtn_disabled (v : bool) (p : Page) : Page :=
  mkPage (statusText p) (faceIndicator_textContent p)
    (faceIndicator_className p) (resultsPlaceholder_display p)
    (resultsGrid_display p) v (hrValue p) (bpValue p) (stressValue p)
    (webcam_readyState p).

Definition set_hrValue (v : string) (p : Page) : Page :=
  mkPage (statusText p) (faceIndicator_textContent p)
    (faceIndicator_className p) (resultsPlaceholder_display p)
    (resultsGrid_display p) (predictBtn_disabled p) v (bpValue p)
    (stressValue p) (webcam_readyState p).

Definition set_bpValue (v : string) (p : Page) : Page :=
  mkPage (statusText p) (faceIndicator_textContent p)
    (faceIndicator_className p) (resultsPlaceholder_display p)
    (resultsGrid_display p) (predictBtn_disabled p) (hrValue p) v
    (stressValue p) (webcam_readyState p).

Definition set_stressValue (v : string) (p : Page) : Page :=
  mkPage (statusText p) (faceIndicator_textContent p)
    (faceIndicator_className p) (resultsPlaceholder_display p)
    (resultsGrid_display p) (predictBtn_disabled p) (hrValue p) (bpValue p)
    v (webcam_readyState p).

Definition set_webcam_readyState (v : Z) (p : Page) : Page :=
  mkPage (statusText p) (faceIndicator_textContent p)
    (faceIndicator_className p) (resultsPlaceholder_display p)
    (resultsGrid_display p) (predictBtn_disabled p) (hrValue p) (bpValue p)
    (stressValue p) v.

Definition with_page (f : Page → Page) (s : State) : State :=
  mkState (f (page s)) (mediaRecorder s) (recordedChunks s)
    (faceCheckInterval s) (model s) (now s) (next_timer s) (timers s)
    (detecting s) (stop_queued s) (fetching s) (log s).

Definition with_mediaRecorder (v : option RecordingState) (s : State) : State :=
  mkState (page s) v (recordedChunks s)
    (faceCheckInterval s) (model s) (now s) (next_timer s) (timers s)
    (detecting s) (stop_queued s) (fetching s) (log s).

Definition with_recordedChunks (v : list Blob) (s : State) : State :=
  mkState (page s) (mediaRecorder s) v
    (faceCheckInterval s) (model s) (now s) (next_timer s) (timers s)
    (detecting s) (stop_queued s) (fetching s) (log s).

Definition with_faceCheckInterval (v : option nat) (s : State) : State :=
  mkState (page s) (mediaRecorder s) (recordedChunks s)
    v (model s) (now s) (next_timer s) (timers s)
    (detecting s) (stop_queued s) (fetching s) (log s).

Definition with_model (v : bool) (s : State) : State :=
  mkState (page s) (mediaRecorder s) (recordedChunks s)
    (faceCheckInterval s) v (now s) (next_timer s) (timers s)
    (detecting s) (stop_queued s) (fetching s) (log s).

Definition with_now (v : Z) (s : State) : State :=
  mkState (page s) (mediaRecorder s) (recordedChunks s)
    (faceCheckInterval s) (model s) v (next_timer s) (timers s)
    (detecting s) (stop_queued s) (fetching s) (log s).

Definition with_next_timer (v : nat) (s : State) : State :=
  mkState (page s) (mediaRecorder s) (recordedChunks s)
    (faceCheckInterval s) (model s) (now s) v (timers s)
    (detecting s) (stop_queued s) (fetching s) (log s).

Definition with_timers (v : gmap nat Timer) (s : State) : State :=
  mkState (page s) (mediaRecorder s) (recordedChunks s)
    (faceCheckInterval s) (model s) (now s) (next_timer s) v
    (detecting s) (stop_queued s) (fetching s) (log s).

Definition with_detecting (v : nat) (s : State) : State :=
  mkState (page s) (mediaRecorder s) (recordedChunks s)
    (faceCheckInterval s) (model s) (now s) (next_timer s) (timers s)
    v (stop_queued s) (fetching s) (log s).

Definition with_stop_queued (v : bool) (s : State) : State :=
  mkState (page s) (mediaRecorder s) (recordedChunks s)
    (faceCheckInterval s) (model s) (now s) (next_timer s) (timers s)
    (detecting s) v (fetching s) (log s).

Definition with_fetching (v : nat) (s : State) : State :=
  mkState (page s) (mediaRecorder s) (recordedChunks s)
    (faceCheckInterval s) (model s) (now s) (next_timer s) (timers s)
    (detecting s) (stop_queued s) v (log s).

Definition with_log (v : list Effect) (s : State) : State :=
  mkState (page s) (mediaRecorder s) (recordedChunks s)
    (faceCheckInterval s) (model s) (now s) (next_timer s) (timers s)
    (detecting s) (stop_queued s) (fetching s) v.

(** ** Script code: state plus exceptions *)

(** A piece of script run on a state: the state it leaves, and the value it
    returns or the error it throws. *)
Definition Script (A : Type) : Type := State → State * (JS.Error + A).

Definition ret {A} (a : A) : Script A := λ s, (s, inr a).

Definition throw {A} (e : JS.Error) : Script A := λ s, (s, inl e).

Definition bind {A B} (m : Script A) (k : A → Script B) : Script B :=
  λ s, match m s with
       | (s', inr a) => k a s'
       | (s', inl e) => (s', inl e)
       end.

Notation "'let*' x ':=' m 'in' k" := (bind m (λ x, k))
  (at level 10, x name, m at level 100, k at level 200).
Notation "m >> k" := (bind m (λ _, k))
  (at level 100, k at level 200, right associativity).

(** [try { m } catch (e) { h e }] *)
Definition try_catch {A} (m : Script A) (h : JS.Error → Script A) : Script A :=
  λ s, match m s with
       | (s', inl e) => h e s'
       | r => r
       end.

(** [try { m } finally { f }] *)
Definition try_finally {A} (m : Script A) (f : Script unit) : Script A :=
  λ s, match m s with
       | (s', r) =>
           match f s' with
           | (s'', inr _) => (s'', r)
           | (s'', inl e) => (s'', inl e)
           end
       end.

Definition read {A} (f : State → A) : Script A := λ s, (s, inr (f s)).

Definition update (f : State → State) : Script unit := λ s, (f s, inr tt).

(** [await p] once [p] has settled with [r]. *)
Definition await {A} (r : JS.Error + A) : Script A := λ s, (s, r).

Definition on_page (f : Page → Page) : Script unit := update (with_page f).

Definition emit (e : Effect) : Script unit :=
  update (λ s, with_log (log s ++ [e]) s).

Definition console_error (label : string) (e : JS.Error) : Script unit :=
  emit (ConsoleError label e).

(** An event handler run by the browser: an error nobody caught is reported
    and the handler's writes up to the throw stay. *)
Definition run_handler (m : Script unit) (s : State) : State :=
  match m s with
  | (s', inr _) => s'
  | (s', inl e) => with_log (log s' ++ [Uncaught e]) s'
  end.

(** *** Timers *)

Definition set_timer (cb : Callback) (p : option Z) (delay : Z) : Script nat :=
  λ s, let id := next_timer s in
       (with_next_timer (S id)
          (with_timers (<[id := mkTimer (now s + delay) p cb]> (timers s)) s),
        inr id).

Definition setTimeout (cb : Callback) (delay : Z) : Script nat :=
  set_timer cb None delay.

Definition setInterval (cb : Callback) (delay : Z) : Script nat :=
  set_timer cb (Some delay) delay.

(** [clearInterval(id)]; an id that names no pending timer, and
    [undefined], clear nothing. *)
Definition clearInterval (id : option nat) : Script unit :=
  update (λ s, with_timers
                 (match id with
                  | Some i => delete i (timers s)
                  | None => timers s
                  end) s).

(** *** The recorder *)

(** [mediaRecorder.state] *)
Definition mediaRecorder_state : Script RecordingState :=
  let* r := read mediaRecorder in
  match r with
  | Some st => ret st
  | None =>
      throw (JS.mkError "TypeError"
               "Cannot read properties of undefined (reading 'state')")
  end.

(** [mediaRecorder.start()]: throws unless the recorder is inactive. *)
Definition mediaRecorder_start : Script unit :=
  let* r := read mediaRecorder in
  match r with
  | Some inactive =>
      update (with_mediaRecorder (Some recording)) >> emit RecorderStart
  | Some _ =>
      throw (JS.mkError "InvalidStateError"
               "Failed to execute 'start' on 'MediaRecorder': The MediaRecorder's state is not 'inactive'.")
  | None =>
      throw (JS.mkError "TypeError"
               "Cannot read properties of undefined (reading 'start')")
  end.

(** [mediaRecorder.stop()]: the state becomes inactive at once; the last
    data and the stop notification are delivered later. *)
Definition mediaRecorder_stop : Script unit :=
  let* r := read mediaRecorder in
  match r with
  | Some inactive => ret tt
  | Some _ =>
      update (with_mediaRecorder (Some inactive)) >>
      update (with_stop_queued true) >>
      emit RecorderStop
  | None =>
      throw (JS.mkError "TypeError"
               "Cannot read properties of undefined (reading 'stop')")
  end.

(** ** The script *)

Definition msg_loading : string := "Loading face detection model...".
Definition msg_ready : string := "Ready to start monitoring.".
Definition msg_model_error : string :=
  "Error: Could not load face detection model.".
Definition msg_webcam_error : string := "Error: Could not access webcam.".
Definition msg_reject : string :=
  "Please ensure your face is detected before starting.".
Definition msg_processing : string := "Processing... Please wait.".
Definition msg_complete : string :=
  "Measurement complete. Ready to start monitoring.".

(** [`Recording... ${countdown}s remaining`].  The variable holds an
    integral Number, given here by the integer. *)
Definition msg_recording (countdown : Z) : string :=
  "Recording... " +:+ JS.NumberToString (JS.of_Z countdown) +:+ "s remaining".

(** Lines 21-31, from the moment [blazeface.load()] has settled with [r]. *)
Definition loadModel_resume (r : JS.Error + unit) : Script unit :=
  try_catch
    (let* _ := await r in
     update (with_model true) >>
     on_page (set_statusText msg_ready))
    (λ err,
       console_error "Error loading model:" err >>
       on_page (set_statusText msg_model_error)).

(** Lines 21-24, up to the await. *)
Definition loadModel_begin : Script unit :=
  on_page (set_statusText msg_loading).

(** Lines 59-63: [getUserMedia] was refused. *)
Definition initializeWebcam_failed (err : JS.Error) : Script unit :=
  console_error "Webcam Error:" err >>
  on_page (set_statusText msg_webcam_error) >>
  on_page (set_faceIndicator_textContent "Camera Error").

(** Lines 41-57: [webcamElement.onloadedmetadata]. *)
Definition onloadedmetadata : Script unit :=
  on_page (set_predictBtn_disabled false) >>
  update (with_mediaRecorder (Some inactive)) >>
  let* m := read model in
  if m then
    let* id := setInterval CbDetectFace 500 in
    update (with_faceCheckInterval (Some id))
  else ret tt.

(** Line 46: [mediaRecorder.ondataavailable]. *)
Definition ondataavailable (data : Blob) : Script unit :=
  if 0 <? blob_size data
  then update (λ s, with_recordedChunks (recordedChunks s ++ [data]) s)
  else ret tt.

(** Lines 68-72 and the call of line 75, up to the await. *)
Definition detectFace_begin : Script unit :=
  let* m := read model in
  let* readyState := read (λ s, webcam_readyState (page s)) in
  if negb m || (readyState <? 2) then ret tt
  else
    emit EstimateFaces >>
    update (λ s, with_detecting (S (detecting s)) s).

(** Lines 73-86, from the moment [estimateFaces] has settled: with the
    number of predictions, or with an error. *)
Definition detectFace_resume (r : JS.Error + nat) : Script unit :=
  try_catch
    (let* predictions_length := await r in
     if (0 <? predictions_length)%nat
     then on_page (set_faceIndicator "Face Detected" "status-indicator green")
     else on_page (set_faceIndicator "No Face Detected" "status-indicator red"))
    (λ err, console_error "Error during face detection:" err).

(** Lines 90-123. *)
Definition startMeasurement : Script unit :=
  let* cls := read (λ s, faceIndicator_className (page s)) in
  if negb (JS.classList_contains cls "green") then
    on_page (set_statusText msg_reject) >>
    let* _ := setTimeout CbRevertStatus 3000 in
    ret tt
  else
    on_page (set_resultsPlaceholder_display "block") >>
    on_page (set_resultsGrid_display "none") >>
    on_page (set_predictBtn_disabled true) >>
    (let* id := read faceCheckInterval in clearInterval id) >>
    let measurementDuration := 30000 in
    let countdown := measurementDuration / 1000 in
    on_page (set_statusText (msg_recording countdown)) >>
    let* countdownInterval := setInterval (CbCountdown countdown) 1000 in
    mediaRecorder_start >>
    let* _ := setTimeout CbStopRecorder measurementDuration in
    ret tt.

(** Lines 93-97: the callback of the rejection's timeout. *)
Definition revert_status : Script unit :=
  let* text := read (λ s, statusText (page s)) in
  if String.eqb text msg_reject
  then on_page (set_statusText msg_ready)
  else ret tt.

(** Lines 110-114: one tick of the countdown interval, whose id is
    [countdownInterval] and whose variable holds [countdown].  The variable
    starts at 30 and is only ever decremented: on integral Numbers of this
    size [countdown--] is the integer's predecessor. *)
Definition countdown_tick (countdownInterval : nat) (countdown : Z)
  : Script unit :=
  let countdown := countdown - 1 in
  update (λ s, with_timers
                 (alter (λ t, mkTimer (due t) (period t) (CbCountdown countdown))
                    countdownInterval (timers s)) s) >>
  on_page (set_statusText (msg_recording countdown)) >>
  if countdown <=? 0 then clearInterval (Some countdownInterval) else ret tt.

(** Lines 117-122: the callback of the stop timeout. *)
Definition stop_recorder : Script unit :=
  let* st := mediaRecorder_state in
  match st with
  | recording =>
      mediaRecorder_stop >>
      on_page (set_statusText msg_processing)
  | _ => ret tt
  end.

(** Lines 155-157: the stress level of a heart rate and a systolic
    pressure as read from the data.  A comparison can throw only where the
    conversion of its left operand does. *)
Definition stressLevel (heart_rate systolic_bp : JS.Value)
  : JS.Error + string :=
  let stress := "Normal" in
  match JS.or_else (JS.gt heart_rate 100) (JS.gt systolic_bp 135) with
  | inl e => inl e
  | inr true => inr "High"
  | inr false =>
      match JS.or_else (JS.gt heart_rate 85) (JS.gt systolic_bp 125) with
      | inl e => inl e
      | inr true => inr "Moderate"
      | inr false => inr stress
      end
  end.

(** Lines 149-161.  Each property is read once here: reading a data
    property again yields the same value. *)
Definition displayResults (data : JS.Value) : Script unit :=
  on_page (set_resultsPlaceholder_display "none") >>
  on_page (set_resultsGrid_display "flex") >>
  let* heart_rate := await (JS.get data "heart_rate") in
  let* heart_rate_text := await (JS.ToString heart_rate) in
  on_page (set_hrValue (heart_rate_text +:+ " bpm")) >>
  let* systolic_bp := await (JS.get data "systolic_bp") in
  let* systolic_bp_text := await (JS.ToString systolic_bp) in
  let* diastolic_bp := await (JS.get data "diastolic_bp") in
  let* diastolic_bp_text := await (JS.ToString diastolic_bp) in
  on_page (set_bpValue (systolic_bp_text +:+ "/" +:+
                        diastolic_bp_text +:+ " mmHg")) >>
  let* stress := await (stressLevel heart_rate systolic_bp) in
  on_page (set_stressValue stress) >>
  on_page (set_statusText msg_complete).

(** What the prediction endpoint's answer looks like to the script. *)
Inductive Body : Type :=
| NotJson (e : JS.Error)     (* [response.json()] rejects with [e] *)
| Json (v : JS.Value).       (* [response.json()] resolves with [v] *)

Inductive FetchOutcome : Type :=
| Rejected (e : JS.Error)                 (* the transport failed *)
| Response (ok : bool) (body : Body).     (* [response.ok] and the body *)

Definition response_json (b : Body) : Script JS.Value :=
  match b with
  | NotJson e => throw e
  | Json v => ret v
  end.

(** Lines 126-130, up to the await of [fetch]. *)
Definition sendToServerForPrediction_begin (blob : Blob) : Script unit :=
  emit (Fetch "/predict" "POST" "video_blob" blob "recording.webm") >>
  update (λ s, with_fetching (S (fetching s)) s).

(** Lines 130-145, from the moment [fetch] has settled with [r]. *)
Definition sendToServerForPrediction_resume (r : FetchOutcome) : Script unit :=
  try_finally
    (try_catch
       (let* response :=
          await (match r with
                 | Rejected e => inl e
                 | Response ok body => inr (ok, body)
                 end) in
        let '(ok, body) := response in
        (if negb ok then
           let* errData :=
             try_catch (response_json body)
               (λ _, ret (JS.Object
                            [("error",
                              JS.Primitive
                                (JS.Str "Server returned an error."))])) in
           let* error := await (JS.get errData "error") in
           let* message :=
             await (JS.ToString
                      (if JS.ToBoolean error then error
                       else JS.Primitive (JS.Str "Prediction failed."))) in
           throw (JS.mkError "Error" message)
         else ret tt) >>
        let* data := response_json body in
        displayResults data)
       (λ error,
          console_error "Prediction Error:" error >>
          on_page (set_statusText ("Error: " +:+ JS.err_message error))))
    (on_page (set_predictBtn_disabled false) >>
     let* m := read model in
     if m then
       let* id := setInterval CbDetectFace 500 in
       update (with_faceCheckInterval (Some id))
     else ret tt).

(** Lines 47-51: [mediaRecorder.onstop]. *)
Definition onstop : Script unit :=
  let* chunks := read recordedChunks in
  let videoBlob := new_Blob chunks "video/webm" in
  update (with_recordedChunks []) >>
  sendToServerForPrediction_begin videoBlob.

(** ** The browser's events *)

(** What the browser can do next.  The recorder stops only when the script
    asks it to: a stream that ends by itself is not among the events. *)
Inductive Event : Type :=
| Advance (dt : Z)                   (* time passes *)
| ReadyState (n : Z)                 (* the video element's readyState changes *)
| Click                              (* a click on predict-btn *)
| Fire (id : nat)                    (* a due timer runs *)
| FacesSettled (r : JS.Error + nat)  (* an estimateFaces call settles *)
| DataAvailable (data : Blob)        (* the recorder hands over data *)
| RecorderStopped                    (* the recorder's stop notification *)
| FetchSettled (r : FetchOutcome).   (* the request of line 130 settles *)

Definition run_callback (id : nat) (cb : Callback) : Script unit :=
  match cb with
  | CbDetectFace => detectFace_begin
  | CbRevertStatus => revert_status
  | CbCountdown countdown => countdown_tick id countdown
  | CbStopRecorder => stop_recorder
  end.

(** A timer runs once it is due: a timeout leaves the table, an interval is
    scheduled again one period from now, and then the callback runs. *)
Definition fire (id : nat) (s : State) : State :=
  match timers s !! id with
  | Some t =>
      if decide (due t ≤ now s) then
        let table :=
          match period t with
          | Some p => <[id := mkTimer (now s + p) (period t) (callback t)]> (timers s)
          | None => delete id (timers s)
          end in
        run_handler (run_callback id (callback t)) (with_timers table s)
      else s
  | None => s
  end.

(** Is the recorder delivering: recording, or stopped with its last data and
    stop notification still to come. *)
Definition capturing (s : State) : bool :=
  bool_decide (mediaRecorder s = Some recording) || stop_queued s.

(** One event.  An event that cannot happen in the state (a click on the
    disabled button, a timer that is not pending or not due, a settlement
    with nothing in flight) changes nothing. *)
Definition step (s : State) (e : Event) : State :=
  match e with
  | Advance dt => if decide (0 ≤ dt) then with_now (now s + dt) s else s
  | ReadyState n => with_page (set_webcam_readyState n) s
  | Click =>
      if predictBtn_disabled (page s) then s
      else run_handler startMeasurement s
  | Fire id => fire id s
  | FacesSettled r =>
      match detecting s with
      | S n => run_handler (detectFace_resume r) (with_detecting n s)
      | O => s
      end
  | DataAvailable data =>
      if capturing s then run_handler (ondataavailable data) s else s
  | RecorderStopped =>
      if stop_queued s
      then run_handler onstop (with_stop_queued false s)
      else s
  | FetchSettled r =>
      match fetching s with
      | S n =>
          run_handler (sendToServerForPrediction_resume r) (with_fetching n s)
      | O => s
      end
  end.

Definition run (s : State) (tr : list Event) : State := foldl step s tr.

(** The signal the gate of line 91 reads off the indicator's classes. *)
Definition currentSignal (s : State) : DetectionSignal :=
  let cls := faceIndicator_className (page s) in
  if JS.classList_contains cls "green" then FacePresent
  else if JS.classList_contains cls "red" then FaceAbsent
  else Unknown.

(** A page to run the examples on.  The markup is not part of the script:
    this one shows nothing yet and has its button disabled. *)
Definition blank_page : Page :=
  mkPage "" "" "status-indicator" "block" "none" true "" "" "" 0.

(** A page whose markup shows the indicator green from the start. *)
Definition green_page : Page :=
  mkPage "" "" "status-indicator green" "block" "none" true "" "" "" 0.

(** The state when the script starts on page [p]: no variable set, no timer
    pending, ids handed out from 1. *)
Definition initial (p : Page) : State :=
  mkState p None [] None false 0 1 ∅ 0 false 0 [].

(** The state once the model has loaded (or not) and the camera's metadata
    has arrived: lines 168-169 with [getUserMedia] granted and the
    MediaRecorder of line 45 constructed. *)
Definition booted (p : Page) (model_loads : JS.Error + unit) : State :=
  run_handler onloadedmetadata
    (run_handler (loadModel_begin >> loadModel_resume model_loads)
       (initial p)).

(** ** Sessions *)

(** Is a request in flight. *)
Definition submitting (s : State) : bool := bool_decide (0 < fetching s)%nat.

(** A measurement session runs from the accepted click until the request
    has settled: the recorder records, then its stop is awaited, then the
    request is in flight. *)
Definition in_session (s : State) : bool := capturing s || submitting s.

(** Is some timer polling the detector. *)
Definition polling (s : State) : Prop :=
  ∃ id t, timers s !! id = Some t ∧ callback t = CbDetectFace.

(** The callbacks of the pending timers, by id. *)
Definition pending (s : State) : list (nat * Callback) :=
  (λ it, (it.1, callback it.2)) <$> map_to_list (timers s).

(** Is some countdown interval pending. *)
Definition counting (s : State) : Prop :=
  ∃ id t c, timers s !! id = Some t ∧ callback t = CbCountdown c.

Definition is_start (e : Effect) : bool :=
  match e with RecorderStart => true | _ => false end.

Definition is_stop (e : Effect) : bool :=
  match e with RecorderStop => true | _ => false end.

Definition is_fetch (e : Effect) : bool :=
  match e with Fetch _ _ _ _ _ => true | _ => false end.

Definition tally (f : Effect → bool) (l : list Effect) : nat :=
  length (List.filter f l).

Definition stages (s : State) : nat :=
  ((if bool_decide (mediaRecorder s = Some recording) then 1 else 0) +
   (if stop_queued s then 1 else 0) + fetching s)%nat.

(** What every state the page reaches satisfies. *)
Record Inv (s : State) : Prop := mkInv {
  inv_recorder :
    mediaRecorder s = Some inactive ∨ mediaRecorder s = Some recording;
  inv_fresh :
    ∀ id t, timers s !! id = Some t → (id < next_timer s)%nat;
  inv_fci_fresh :
    ∀ id, faceCheckInterval s = Some id → (id < next_timer s)%nat;
  inv_poll_id :
    ∀ id t, timers s !! id = Some t → callback t = CbDetectFace →
            faceCheckInterval s = Some id;
  inv_exclusive :
    in_session s = true → ¬ polling s;
  inv_stages : (stages s ≤ 1)%nat;
  inv_enabled :
    predictBtn_disabled (page s) = false → stages s = 0%nat;
  inv_stop_timer :
    ∀ id t, timers s !! id = Some t → callback t = CbStopRecorder →
            mediaRecorder s = Some recording ∧ period t = None;
  inv_stop_unique :
    ∀ id id' t t', timers s !! id = Some t → timers s !! id' = Some t' →
                   callback t = CbStopRecorder → callback t' = CbStopRecorder →
                   id = id';
  inv_chunks : capturing s = false → recordedChunks s = [];
  inv_starts :
    tally is_start (log s) =
      (tally is_fetch (log s) + (if capturing s then 1 else 0))%nat
}.

(** The events of a trace that settle a detection with a result. *)
Definition is_detection (e : Event) : bool :=
  match e with FacesSettled (inr _) => true | _ => false end.

(** The events that settle a request with a success status and a JSON body. *)
Definition is_rendering (e : Event) : bool :=
  match e with FetchSettled (Response true (Json _)) => true | _ => false end.

(** A submission that failed: the transport failed, or the endpoint
    answered with a status that is not a success. *)
Definition failed (r : FetchOutcome) : bool :=
  match r with
  | Rejected _ => true
  | Response ok _ => negb ok
  end.

(** The outcomes that never reach [displayResults]: the failures above,
    and a success status whose body is not JSON. *)
Definition unrendered (r : FetchOutcome) : bool :=
  match r with
  | Response true (Json _) => false
  | _ => true
  end.

(** The settlement of the request ends in the catch clause of line 137. *)
Definition caught (s : State) (r : FetchOutcome) : Prop :=
  ∃ err,
    log (step s (FetchSettled r)) =
      log s ++ [ConsoleError "Prediction Error:" err].

Definition is_settlement (e : Event) : bool :=
  match e with FetchSettled _ => true | _ => false end.

(** The data the recorder handed over along a trace, in order. *)
Definition delivered (tr : list Event) : list Blob :=
  omap (λ e, match e with DataAvailable b => Some b | _ => None end) tr.

(** The result display: the three values and the two panels. *)
Definition results (s : State) : string * string * string * string * string :=
  (hrValue (page s), bpValue (page s), stressValue (page s),
   resultsPlaceholder_display (page s), resultsGrid_display (page s)).

(** ** Vocabulary of the statements *)

(** The page is idle: the trigger is enabled and no session is under way. *)
Definition idle (s : State) : Prop :=
  predictBtn_disabled (page s) = false ∧ mediaRecorder s = Some inactive ∧
  stop_queued s = false ∧ fetching s = 0%nat.

(** What a rejected request leaves behind: the rejection message, and a
    timeout due three seconds from now; nothing else differs. *)
Definition reject (s : State) : State :=
  with_next_timer (S (next_timer s))
    (with_timers
       (<[next_timer s := mkTimer (now s + 3000) None CbRevertStatus]>
          (timers s))
       (with_page (set_statusText msg_reject) s)).

(** The signal a detection that found [n] regions stands for. *)
Definition signal_of (n : nat) : DetectionSignal :=
  if (0 <? n)%nat then FacePresent else FaceAbsent.

(** What line 46 keeps of the data an event brings. *)
Definition kept (e : Event) : list Blob :=
  match e with
  | DataAvailable b => if 0 <? blob_size b then [b] else []
  | _ => []
  end.

(** Events that belong to the polling: a tick of a polling timer, and the
    settlement of a detection. *)
Definition is_poll_event (s : State) (e : Event) : Prop :=
  match e with
  | Fire id => ∃ t, timers s !! id = Some t ∧ callback t = CbDetectFace
  | FacesSettled _ => True
  | _ => False
  end.

Definition is_number (v : JS.Value) : bool :=
  match v with JS.Primitive (JS.Number _) => true | _ => false end.

(** The metrics shape of the specification: an object whose [heart_rate],
    [systolic_bp] and [diastolic_bp] are numbers.  The script has no such
    test; this follows the specification's words. *)
Definition metrics_shape (v : JS.Value) : bool :=
  match v with
  | JS.Object props =>
      is_number (JS.own_prop props "heart_rate") &&
      is_number (JS.own_prop props "systolic_bp") &&
      is_number (JS.own_prop props "diastolic_bp")
  | JS.Primitive _ | JS.Array _ => false
  end.

(** *** States and traces of the examples *)

(** The page is up, the model loaded, the video playing. *)
Definition ready : State :=
  step (booted blank_page (inr ())) (ReadyState 4).

(** The first poll has found a face. *)
Definition face_seen : State :=
  run ready [Advance 500; Fire 1%nat; FacesSettled (inr 1%nat)].

(** A request is rejected at time 0 (in [ready]); then a face is found, a
    second request is accepted half a second later, and the countdown ticks
    twice before the three seconds of the rejection are over. *)
Definition overtaken_trace : list Event :=
  [Advance 500; Fire 1%nat; FacesSettled (inr 1%nat); Click;
   Advance 1000; Fire 3%nat; Advance 1000; Fire 3%nat; Advance 500].

(** A session in [face_seen]: thirty seconds pass, the stop timer runs, the
    recorder hands over two pieces of data, one of them empty. *)
Definition chunk : Blob := mkBlob "video/webm" [Byte.x1a; Byte.x45].

Definition recorded_trace : list Event :=
  [Advance 30000; Fire 3%nat; DataAvailable chunk;
   DataAvailable (mkBlob "video/webm" [])].

(** A whole session in [face_seen] whose request fails, the countdown
    interval never getting to tick. *)
Definition failed_session : list Event :=
  Click :: recorded_trace ++
  [RecorderStopped;
   FetchSettled (Rejected (JS.mkError "TypeError" "Failed to fetch"))].

(** The same on [green_page] without the model: the click is accepted on
    the markup's word, and the stop timeout has id 2. *)
Definition blind_session : list Event :=
  [Click; Advance 30000; Fire 2%nat; RecorderStopped].

(** *** Further vocabulary *)

Definition is_uncaught (e : Effect) : bool :=
  match e with Uncaught _ => true | _ => false end.

Definition is_estimate (e : Effect) : bool :=
  match e with EstimateFaces => true | _ => false end.

(** The indicator as the user sees it: its text and its classes. *)
Definition indicator (s : State) : string * string :=
  (faceIndicator_textContent (page s), faceIndicator_className (page s)).

(** Lines 168-169 when [getUserMedia] is refused with [err]: the model has
    loaded or not, and the catch clause of lines 59-63 has run. *)
Definition camera_refused (p : Page) (model_loads : JS.Error + unit)
    (err : JS.Error) : State :=
  run_handler (initializeWebcam_failed err)
    (run_handler (loadModel_begin >> loadModel_resume model_loads)
       (initial p)).

(** [k] seconds pass, the countdown interval [id] ticking once in each. *)
Definition ticks (id : nat) (k : nat) : list Event :=
  mjoin (replicate k [Advance 1000; Fire id]).

(** Without the model nothing polls, nothing is detected and nothing is
    recorded: what a page whose model failed to load keeps. *)
Record Blind (s : State) : Prop := mkBlind {
  blind_model : model s = false;
  blind_timers :
    ∀ id t, timers s !! id = Some t → callback t = CbRevertStatus;
  blind_detecting : detecting s = 0%nat;
  blind_button : predictBtn_disabled (page s) = false;
  blind_class :
    JS.classList_contains (faceIndicator_className (page s)) "green" = false;
  blind_recorder : mediaRecorder s = Some inactive;
  blind_stop : stop_queued s = false;
  blind_fetching : fetching s = 0%nat;
  blind_log : tally is_start (log s) = 0%nat ∧
              tally is_estimate (log s) = 0%nat
}.

(** What a page whose camera was refused keeps, its button disabled by the
    markup. *)
Record Dark (s : State) : Prop := mkDark {
  dark_status : statusText (page s) = msg_webcam_error;
  dark_text : faceIndicator_textContent (page s) = "Camera Error";
  dark_button : predictBtn_disabled (page s) = true;
  dark_recorder : mediaRecorder s = None;
  dark_timers : timers s = ∅;
  dark_detecting : detecting s = 0%nat;
  dark_stop : stop_queued s = false;
  dark_fetching : fetching s = 0%nat
}.

(** The trigger is disabled and nothing is left that could enable it: no
    recorder, no stop notification awaited, no request in flight. *)
Record Stuck (s : State) : Prop := mkStuck {
  stuck_button : predictBtn_disabled (page s) = true;
  stuck_recorder : mediaRecorder s = None;
  stuck_stop : stop_queued s = false;
  stuck_fetching : fetching s = 0%nat
}.

(** Every pending countdown holds between 1 and 30 and ticks each second. *)
Definition countdowns_in_range (s : State) : Prop :=
  ∀ id t c, timers s !! id = Some t → callback t = CbCountdown c →
            1 ≤ c ≤ 30 ∧ period t = Some 1000.

(** * Proofs *)

(** ** Running the script symbolically *)

(** Unfold the script and the browser on a state given by its fields. *)
Ltac script :=
  cbv beta iota zeta delta
    [step fire run_handler run_callback
     ret throw bind try_catch try_finally read update await on_page emit
     console_error set_timer setTimeout setInterval clearInterval
     mediaRecorder_state mediaRecorder_start mediaRecorder_stop
     loadModel_resume loadModel_begin initializeWebcam_failed onloadedmetadata
     ondataavailable detectFace_begin detectFace_resume startMeasurement
     revert_status countdown_tick stop_recorder displayResults response_json
     sendToServerForPrediction_begin sendToServerForPrediction_resume onstop
     with_page with_mediaRecorder with_recordedChunks with_faceCheckInterval
     with_model with_now with_next_timer with_timers with_detecting
     with_stop_queued with_fetching with_log
     set_statusText set_faceIndicator set_faceIndicator_textContent
     set_resultsPlaceholder_display set_resultsGrid_display
     set_predictBtn_disabled set_hrValue set_bpValue set_stressValue
     set_webcam_readyState
     page mediaRecorder recordedChunks faceCheckInterval model now next_timer
     timers detecting stop_queued fetching log
     statusText faceIndicator_textContent faceIndicator_className
     resultsPlaceholder_display resultsGrid_display predictBtn_disabled
     hrValue bpValue stressValue webcam_readyState
     in_session capturing submitting currentSignal results stages polling].

Ltac script_all :=
  cbv beta iota zeta delta
    [step fire run_handler run_callback
     ret throw bind try_catch try_finally read update await on_page emit
     console_error set_timer setTimeout setInterval clearInterval
     mediaRecorder_state mediaRecorder_start mediaRecorder_stop
     loadModel_resume loadModel_begin initializeWebcam_failed onloadedmetadata
     ondataavailable detectFace_begin detectFace_resume startMeasurement
     revert_status countdown_tick stop_recorder displayResults response_json
     sendToServerForPrediction_begin sendToServerForPrediction_resume onstop
     with_page with_mediaRecorder with_recordedChunks with_faceCheckInterval
     with_model with_now with_next_timer with_timers with_detecting
     with_stop_queued with_fetching with_log
     set_statusText set_faceIndicator set_faceIndicator_textContent
     set_resultsPlaceholder_display set_resultsGrid_display
     set_predictBtn_disabled set_hrValue set_bpValue set_stressValue
     set_webcam_readyState
     page mediaRecorder recordedChunks faceCheckInterval model now next_timer
     timers detecting stop_queued fetching log
     statusText faceIndicator_textContent faceIndicator_className
     resultsPlaceholder_display resultsGrid_display predictBtn_disabled
     hrValue bpValue stressValue webcam_readyState
     in_session capturing submitting currentSignal results stages polling]
    in *.

Ltac open_state s :=
  destruct s as [[st fit fic rpd rgd dis hr bp sv rs]
                   mr ch fci md nw nx tm det sq fe lg];
  cbn in *; script_all.

(** Split on the scrutinee of a stuck match of the goal. *)
Ltac goal_match :=
  match goal with
  | |- context [match ?x with _ => _ end] =>
      lazymatch x with
      | context [match _ with _ => _ end] => fail
      | _ => destruct x eqn:?
      end
  end.

Ltac cases := repeat (goal_match; script).

(** One goal per event and per path through its handler. *)
Ltac by_event s e :=
  destruct e; open_state s;
  try match goal with
    | |- context [match ?tm !! ?id with _ => _ end] =>
        let Hid := fresh "Hid" in
        destruct (tm !! id) as [[? ? []]|] eqn:Hid; script
    end;
  cases.

Lemma tally_snoc f l e :
  tally f (l ++ [e]) = (tally f l + (if f e then 1 else 0))%nat.
Proof.
  unfold tally. rewrite List.filter_app, length_app. cbn.
  destruct (f e); cbn; lia.
Qed.

(** Lookups in an updated timer table, decisions and options. *)
Ltac lk :=
  repeat match goal with
    | H : context [<[_:=_]> _ !! _] |- _ => rewrite lookup_insert in H
    | H : context [delete _ _ !! _] |- _ => rewrite lookup_delete in H
    | H : context [alter _ _ _ !! _] |- _ => rewrite lookup_alter in H
    | H : context [∅ !! _] |- _ => rewrite lookup_empty in H
    | |- context [<[_:=_]> _ !! _] => rewrite lookup_insert
    | |- context [delete _ _ !! _] => rewrite lookup_delete
    | |- context [alter _ _ _ !! _] => rewrite lookup_alter
    | H : context [tally _ (_ ++ [_])] |- _ =>
        rewrite tally_snoc in H; cbn [is_start is_stop is_fetch] in H
    | |- context [tally _ (_ ++ [_])] =>
        rewrite tally_snoc; cbn [is_start is_stop is_fetch]
    | H : context [@decide ?P ?d] |- _ => destruct (@decide P d); subst
    | |- context [@decide ?P ?d] => destruct (@decide P d); subst
    | H : context [@bool_decide ?P ?d] |- _ =>
        destruct (@bool_decide_reflect P d)
    | |- context [@bool_decide ?P ?d] => destruct (@bool_decide_reflect P d)
    | H : ?x = _ |- _ => is_var x; subst x
    | H : _ = ?x |- _ => is_var x; subst x
    | H : context [match ?x with true => _ | false => _ end] |- _ =>
        is_var x; destruct x
    | |- context [match ?x with true => _ | false => _ end] =>
        is_var x; destruct x
    | H : Some _ = Some _ |- _ => inversion H; subst; clear H
    | H : None = Some _ |- _ => discriminate H
    | H : Some _ = None |- _ => discriminate H
    | H : _ <$> _ = Some _ |- _ =>
        apply fmap_Some in H; destruct H as (? & ? & ?); subst
    | H : ∃ _, _ |- _ => destruct H
    | H : _ ∧ _ |- _ => destruct H
    | H : context [match ?x with Some _ => _ | None => _ end] |- _ =>
        destruct x eqn:?
    | |- context [match ?x with Some _ => _ | None => _ end] =>
        destruct x eqn:?
    | H : context [callback (mkTimer _ _ _)] |- _ => cbn [callback] in H
    | H : context [period (mkTimer _ _ _)] |- _ => cbn [period] in H
    | H : context [due (mkTimer _ _ _)] |- _ => cbn [due] in H
    | |- context [callback (mkTimer _ _ _)] => cbn [callback]
    | |- context [period (mkTimer _ _ _)] => cbn [period]
    | |- context [due (mkTimer _ _ _)] => cbn [due]
    end.

Ltac learn H :=
  let T := type of H in
  lazymatch goal with
  | _ : T |- _ => fail
  | _ => pose proof H
  end.

(** Use what the invariant says of the timers at hand. *)
Ltac sat :=
  repeat match goal with
    | Hf : (∀ (id : nat) (t : Timer), ?m !! id = Some t → _),
      Hl : ?m !! ?i = Some ?x |- _ =>
        learn (Hf i x Hl)
    | Hf : (∀ (id id' : nat) (t t' : Timer),
              ?m !! id = Some t → ?m !! id' = Some t' → _),
      Hl : ?m !! ?i = Some ?x, Hl' : ?m !! ?j = Some ?y |- _ =>
        learn (Hf i j x y Hl Hl')
    | Hf : (∀ id : nat, Some ?n = Some id → _) |- _ => learn (Hf n eq_refl)
    | Hf : (∀ id : nat, ?x = Some id → _), Hl : ?x = Some ?n |- _ =>
        learn (Hf n Hl)
    end.

Ltac fin :=
  try done; try lia; try (unfold tally in *; lia);
  try (intuition (try congruence; try lia; eauto); fail);
  try (exfalso;
       match goal with
       | Hn : _ → ¬ _ |- _ => apply Hn; [done | do 2 eexists; split; eauto]
       end; fail).

Ltac close_inv :=
  constructor; script; cbn; unfold not; intros;
  lk; cbn in *; lk; sat; cbn in *; fin.

(** ** The invariant *)

Lemma Inv_click s : Inv s → Inv (step s Click).
Proof.
  intros [H1 H2 H3 H4 H5 H6 H7 H8 H9 H10 H11].
  open_state s.
  destruct dis; [by constructor|].
  specialize (H7 eq_refl).
  destruct (JS.classList_contains _ "green") eqn:Hg; cbn.
  - destruct H1 as [-> | ->]; cbn in *; [|done].
    destruct sq; [done|]. cbn in *. subst.
    close_inv.
  - close_inv.
Qed.

Lemma Inv_step s e : Inv s → Inv (step s e).
Proof.
  intros [H1 H2 H3 H4 H5 H6 H7 H8 H9 H10 H11].
  destruct e.
  - open_state s. destruct (decide _); close_inv.
  - open_state s. close_inv.
  - apply Inv_click. by constructor.
  - open_state s.
    destruct (tm !! id) as [[d p cb]|] eqn:Hid; [|by constructor].
    destruct (decide _); [|by constructor].
    destruct cb; lk; cbn in *; cases; close_inv.
  - open_state s. lk; cbn in *; cases; close_inv.
  - open_state s. lk; cbn in *; cases; close_inv.
  - open_state s. lk; cbn in *; cases; close_inv.
  - open_state s. lk; cbn in *; cases; close_inv.
Qed.

Lemma run_snoc s tr e : run s (tr ++ [e]) = step (run s tr) e.
Proof. unfold run. by rewrite foldl_app. Qed.

Lemma run_app s tr tr' : run s (tr ++ tr') = run (run s tr) tr'.
Proof. unfold run. by rewrite foldl_app. Qed.

Lemma Inv_run s tr : Inv s → Inv (run s tr).
Proof.
  induction tr as [|e tr IH] using rev_ind; [done|].
  intros Hs. rewrite run_snoc. by apply Inv_step, IH.
Qed.

Lemma Inv_booted p r : Inv (booted p r).
Proof.
  destruct p, r as [err|[]]; constructor; unfold booted, initial;
    script; cbn; unfold not; intros; lk; cbn in *; lk; fin.
Qed.

Lemma Inv_ready : Inv ready.
Proof. apply Inv_step, Inv_booted. Qed.

Lemma Inv_face_seen : Inv face_seen.
Proof. apply Inv_run, Inv_ready. Qed.

(** ** How single events move the state *)

Lemma step_now_mono s e : now s ≤ now (step s e).
Proof. by_event s e; cbn; lia. Qed.


Lemma run_now_mono s tr : now s ≤ now (run s tr).
Proof.
  induction tr as [|e tr IH] using rev_ind; [done|].
  rewrite run_snoc. pose proof (step_now_mono (run s tr) e). lia.
Qed.

(** Only the settlement of a detection writes the indicator's classes. *)
Lemma step_className s e :
  is_detection e = false →
  faceIndicator_className (page (step s e)) = faceIndicator_className (page s).
Proof. by_event s e; cbn in *; done. Qed.

Lemma run_className s tr :
  Forall (λ e, is_detection e = false) tr →
  faceIndicator_className (page (run s tr)) = faceIndicator_className (page s).
Proof.
  induction tr as [|e tr IH] using rev_ind; [reflexivity|].
  intros [Htr He%Forall_inv]%Forall_app.
  rewrite run_snoc, step_className; auto.
Qed.

Lemma run_signal s tr :
  Forall (λ e, is_detection e = false) tr →
  currentSignal (run s tr) = currentSignal s.
Proof. intros Htr. unfold currentSignal. by rewrite run_className. Qed.

Lemma signal_green s :
  currentSignal s = FacePresent ↔
  JS.classList_contains (faceIndicator_className (page s)) "green" = true.
Proof.
  unfold currentSignal.
  destruct (JS.classList_contains _ "green"); [done|].
  destruct (JS.classList_contains _ "red"); split; done.
Qed.

Lemma detection_sets_signal s k n :
  detecting s = S k →
  currentSignal (step s (FacesSettled (inr n))) = signal_of n.
Proof.
  intros Hd. open_state s. subst det. unfold signal_of.
  destruct (0 <? n)%nat; by vm_compute.
Qed.


(** Until its stop notification, a capturing recorder keeps capturing, the
    buffer grows by what line 46 keeps, and nothing is submitted. *)
Lemma step_capturing s e :
  capturing s = true → e ≠ RecorderStopped →
  capturing (step s e) = true ∧
  recordedChunks (step s e) = recordedChunks s ++ kept e ∧
  tally is_fetch (log (step s e)) = tally is_fetch (log s).
Proof.
  intros Hc He. by_event s e; cbn in *; rewrite ?app_nil_r; lk; cbn in *;
    try done; try (repeat split; try done; unfold tally; cbn; lia).
Qed.

Lemma run_capturing s tr :
  capturing s = true → Forall (λ e, e ≠ RecorderStopped) tr →
  capturing (run s tr) = true ∧
  recordedChunks (run s tr) = recordedChunks s ++ (tr ≫= kept) ∧
  tally is_fetch (log (run s tr)) = tally is_fetch (log s).
Proof.
  intros Hc. induction tr as [|e tr IH] using rev_ind.
  - intros _. cbn. by rewrite app_nil_r.
  - intros [Htr He%Forall_inv]%Forall_app.
    destruct (IH Htr) as (Hc' & Hch & Hf).
    destruct (step_capturing (run s tr) e Hc' He) as (? & Hch' & Hf').
    rewrite run_snoc, bind_app. cbn. rewrite app_nil_r.
    rewrite Hch', Hch, Hf', Hf, (assoc_L (++)). done.
Qed.

(** Dropping the empty pieces does not change the bytes. *)
Lemma kept_data tr :
  concat (blob_data <$> (tr ≫= kept)) = concat (blob_data <$> delivered tr).
Proof.
  induction tr as [|e tr IH]; [done|].
  rewrite bind_cons, fmap_app, concat_app, IH.
  destruct e; try done.
  unfold kept, blob_size. destruct data as [ty [|b bs]]; [done|].
  replace (0 <? Z.of_nat (length (blob_data (mkBlob ty (b :: bs))))) with true
    by (symmetry; apply Z.ltb_lt; cbn [blob_data length]; lia).
  cbn. by rewrite app_nil_r.
Qed.



(** An accepted request, in a state the page reaches. *)
Lemma accept_starts s :
  Inv s → predictBtn_disabled (page s) = false →
  currentSignal s = FacePresent →
  let s1 := step s Click in
  log s1 = log s ++ [RecorderStart] ∧
  mediaRecorder s1 = Some recording ∧
  timers s1 !! S (next_timer s) =
    Some (mkTimer (now s + 30000) None CbStopRecorder) ∧
  next_timer s1 = S (S (next_timer s)) ∧ now s1 = now s ∧
  recordedChunks s1 = [] ∧ capturing s1 = true ∧ ¬ polling s1.
Proof.
  intros HI Hb Hg s1.
  pose proof (Inv_step s Click HI) as HI1. fold s1 in HI1.
  assert (in_session s1 = true → ¬ polling s1) as Hex by apply HI1.
  revert Hex. subst s1. clear HI1.
  destruct HI as [H1 H2 H3 H4 H5 H6 H7 H8 H9 H10 H11].
  apply signal_green in Hg. specialize (H7 Hb).
  open_state s. subst dis. rewrite Hg.
  destruct H1 as [-> | ->]; cbn in *; [|done].
  destruct sq; [done|]. cbn in *.
  intros Hex. rewrite lookup_insert_eq. rewrite H10 by done.
  repeat split; try done. by apply Hex.
Qed.

(** The result display changes only when a result is rendered or a request
    is accepted. *)
Lemma step_results_kept s e h b v :
  is_rendering e = false →
  results s = (h, b, v, "block", "none") →
  results (step s e) = (h, b, v, "block", "none").
Proof. by_event s e; cbn in *; intros; simplify_eq; done. Qed.

Lemma run_results_kept s tr h b v :
  Forall (λ e, is_rendering e = false) tr →
  results s = (h, b, v, "block", "none") →
  results (run s tr) = (h, b, v, "block", "none").
Proof.
  induction tr as [|e tr IH] using rev_ind; [by intros|].
  intros [Htr He%Forall_inv]%Forall_app Hs.
  rewrite run_snoc. apply step_results_kept; auto.
Qed.

Lemma accept_results s :
  predictBtn_disabled (page s) = false →
  currentSignal s = FacePresent →
  results (step s Click) =
    (hrValue (page s), bpValue (page s), stressValue (page s), "block", "none").
Proof.
  rewrite signal_green. intros Hb Hg. open_state s. subst dis.
  rewrite Hg. cases; cbn; done.
Qed.

(** The polling callbacks leave the status line alone. *)
Lemma poll_keeps_status s e :
  is_poll_event s e → statusText (page (step s e)) = statusText (page s).
Proof.
  destruct e; try done.
  - intros (t & Ht & Hc). open_state s. rewrite Ht. destruct t as [d p cb].
    cbn in Hc. subst cb. cases; done.
  - intros _. open_state s. cases; done.
Qed.

(** Polling starts again only where line 143 runs. *)
Lemma polling_restart s e :
  ¬ polling s → polling (step s e) →
  ∃ r, e = FetchSettled r ∧ fetching s ≠ 0%nat.
Proof.
  intros Hn Hp.
  destruct e as [dt|n| |id|r0|data| |r].
  8: { exists r. split; [done|]. intros Hz. apply Hn. revert Hp.
       open_state s. by rewrite Hz. }
  all: exfalso; apply Hn; revert Hp; clear; unfold polling; open_state s.
  all: try match goal with
    | |- context [match ?tm !! ?id with _ => _ end] =>
        let Hid := fresh "Hid" in
        destruct (tm !! id) as [[? ? []]|] eqn:Hid; script
    end; cases; cbn.
  all: intros (i & t & Ht & Hc); lk; cbn in *; try done; eauto 6.
Qed.

Lemma settle_ends_session s r :
  Inv s → fetching s ≠ 0%nat →
  in_session s = true ∧ in_session (step s (FetchSettled r)) = false.
Proof.
  intros HI Hf. pose proof (inv_stages _ HI) as Hst. clear HI.
  open_state s. destruct fe as [|[|fe]]; [done| |].
  - destruct (bool_decide_reflect (mr = Some recording)), sq;
      cbn in Hst; try lia.
    split; [done|]. cases; cbn; rewrite bool_decide_false; done.
  - exfalso. destruct (bool_decide _), sq; cbn in Hst; lia.
Qed.

(** ** Single steps in closed form *)

Lemma click_rejects s :
  predictBtn_disabled (page s) = false →
  JS.classList_contains (faceIndicator_className (page s)) "green" = false →
  step s Click = reject s.
Proof. intros Hb Hg. unfold reject. open_state s. by rewrite Hb, Hg. Qed.

Lemma advance_step s dt :
  0 ≤ dt → step s (Advance dt) = with_now (now s + dt) s.
Proof. intros Hdt. unfold step. by rewrite decide_True. Qed.

Lemma fire_revert s id d :
  timers s !! id = Some (mkTimer d None CbRevertStatus) →
  d ≤ now s →
  statusText (page s) = msg_reject →
  step s (Fire id) =
    with_timers (delete id (timers s))
      (with_page (set_statusText msg_ready) s).
Proof.
  intros Ht Hd Hs. open_state s. rewrite Ht. cbn [due period callback].
  rewrite decide_True by done. script. by rewrite Hs.
Qed.

(** ** Timers by their callbacks *)

Lemma pending_lookup s id cb :
  (id, cb) ∈ pending s ↔ ∃ t, timers s !! id = Some t ∧ callback t = cb.
Proof.
  unfold pending. rewrite list_elem_of_fmap. split.
  - intros ([i t] & [= -> ->] & Hin%elem_of_map_to_list). eauto.
  - intros (t & Ht & <-). exists (id, t). split; [done|].
    by apply elem_of_map_to_list.
Qed.

Lemma polling_pending s : polling s ↔ ∃ id, (id, CbDetectFace) ∈ pending s.
Proof.
  unfold polling. split.
  - intros (id & t & Ht & Hc). exists id. apply pending_lookup. eauto.
  - intros (id & (t & Ht & Hc)%pending_lookup). eauto.
Qed.

Lemma counting_pending s :
  counting s ↔ ∃ id c, (id, CbCountdown c) ∈ pending s.
Proof.
  unfold counting. split.
  - intros (id & t & c & Ht & Hc). exists id, c. apply pending_lookup. eauto.
  - intros (id & c & (t & Ht & Hc)%pending_lookup). eauto.
Qed.

(** ** The model variable *)

(** Only [loadModel] assigns [model]. *)
Lemma step_model s e : model (step s e) = model s.
Proof. by_event s e; done. Qed.

Lemma run_model s tr : model (run s tr) = model s.
Proof.
  induction tr as [|e tr IH] using rev_ind; [done|].
  by rewrite run_snoc, step_model.
Qed.

(** ** A countdown tick *)

Lemma fire_countdown s id t c :
  timers s !! id = Some t → callback t = CbCountdown c → due t ≤ now s →
  statusText (page (step s (Fire id))) = msg_recording (c - 1).
Proof.
  intros Ht Hc Hd. destruct t as [d p cb]. cbn in Hc, Hd. subst cb.
  open_state s. rewrite Ht. cbn [due period callback].
  rewrite decide_True by done. script. cases; done.
Qed.

(** The settlement of a request leaves the pending timers alone. *)
Lemma settle_keeps_timers s r id t :
  timers s !! id = Some t → (id < next_timer s)%nat →
  timers (step s (FetchSettled r)) !! id = Some t.
Proof.
  intros Ht Hlt. open_state s. cases; cbn; lk; try done; lia.
Qed.

(** ** Without the model *)

Lemma Blind_step s e : Blind s → Blind (step s e).
Proof.
  intros [H1 H2 H3 Hb H4 H5 H6 H7 [H8 H9]].
  destruct e.
  all: try (open_state s; subst; cases; constructor; cbn in *; intros; lk;
            rewrite ?tally_snoc; cbn; eauto; fail).
  - open_state s. subst. rewrite H4. cbn.
    constructor; cbn in *; intros; lk; cbn; eauto.
  - pose proof (H2 id) as Hcb.
    open_state s. subst.
    destruct (tm !! id) as [[d p' cb]|] eqn:Hid; [|by constructor].
    specialize (Hcb _ eq_refl). cbn in Hcb. subst cb.
    cbn [callback due period]; script; cases; constructor; cbn in *; intros;
      lk; cbn; eauto.
Qed.

Lemma Blind_run p err tr :
  JS.classList_contains (faceIndicator_className p) "green" = false →
  Blind (run (booted p (inl err)) tr).
Proof.
  intros Hg. induction tr as [|e tr IH] using rev_ind.
  - destruct p. cbn in Hg. constructor; unfold booted, initial; script;
      cbn; intros; lk; try done.
  - rewrite run_snoc. by apply Blind_step.
Qed.

(** On a page whose markup does not show the indicator green, a request is
    in flight only with the model loaded. *)
Lemma fetching_model p model_loads tr :
  JS.classList_contains (faceIndicator_className p) "green" = false →
  fetching (run (booted p model_loads) tr) ≠ 0%nat →
  model (run (booted p model_loads) tr) = true.
Proof.
  intros Hg Hf. destruct model_loads as [err|[]].
  - by destruct (blind_fetching _ (Blind_run p err tr Hg)).
  - rewrite run_model. by destruct p.
Qed.

(** ** Settlements that render nothing *)

Lemma step_results_unrendered s r :
  unrendered r = true → results (step s (FetchSettled r)) = results s.
Proof.
  intros Hr. destruct r as [e|[] [e|v]]; try done;
    open_state s; cases; cbn in *; done.
Qed.

Lemma unrendered_not_rendering r :
  unrendered r = true → is_rendering (FetchSettled r) = false.
Proof. by destruct r as [|[] []]. Qed.

(** A success status with a JSON body switches the panels, whatever
    happens to the rendering after that. *)
Lemma rendering_switches_panels s n v :
  fetching s = S n →
  let s' := step s (FetchSettled (Response true (Json v))) in
  resultsPlaceholder_display (page s') = "none" ∧
  resultsGrid_display (page s') = "flex".
Proof. intros Hf s'. subst s'. open_state s. subst fe. cases; done. Qed.

(** ** A page that cannot be started again *)

Lemma Stuck_step s e : Stuck s → Stuck (step s e).
Proof.
  intros [H1 H2 H3 H4].
  destruct e; open_state s; subst;
    try match goal with
      | |- context [match ?tm !! ?id with _ => _ end] =>
          destruct (tm !! id) as [[? ? []]|] eqn:?;
          cbn [callback due period]; script
      end;
    cases; by constructor.
Qed.

Lemma Stuck_run s tr : Stuck s → Stuck (run s tr).
Proof.
  induction tr as [|e tr IH] using rev_ind; [done|].
  intros Hs. rewrite run_snoc. by apply Stuck_step, IH.
Qed.

(** ** The measurement request *)

(** C1 (as amended).  A request made while the page is idle is accepted
    exactly when the signal is FacePresent.  A rejected request changes
    nothing but the status line, which shows the rejection message, and
    registers a timeout due three seconds later.  That timeout cannot run
    earlier; when it runs it puts the ready message back if the status line
    still shows the rejection message, and otherwise leaves the line as it
    is. *)
Theorem request_gate (s : State) :
  idle s →
  (in_session (step s Click) = true ↔ currentSignal s = FacePresent) ∧
  (currentSignal s ≠ FacePresent → step s Click = reject s) ∧
  (∀ s2 id d,
     timers s2 !! id = Some (mkTimer d None CbRevertStatus) →
     (now s2 < d → step s2 (Fire id) = s2) ∧
     (d ≤ now s2 →
      step s2 (Fire id) =
        with_timers (delete id (timers s2))
          (if decide (statusText (page s2) = msg_reject)
           then with_page (set_statusText msg_ready) s2 else s2))).
Proof.
  intros (Hbtn & Hrec & Hsq & Hfe).
  rewrite signal_green.
  split; [|split].
  - unfold reject. open_state s. subst.
    destruct (JS.classList_contains _ "green") eqn:Hg; cbn; done.
  - intros Hg. apply not_true_is_false in Hg. unfold reject.
    open_state s. subst. rewrite Hg. reflexivity.
  - intros s2 id d Ht. split; intros Hd.
    + open_state s2. rewrite Ht. cbn. rewrite decide_False by lia. done.
    + open_state s2. rewrite Ht. cbn. rewrite decide_True by lia.
      case_decide as Hs.
      * rewrite Hs. cbn. done.
      * apply String.eqb_neq in Hs. rewrite Hs. cbn. done.
Qed.

Lemma request_gate_witness :
  idle ready ∧ step ready Click = reject ready.
Proof.
  assert (idle ready) as Hi by (by vm_compute).
  split; [exact Hi|].
  apply (request_gate ready Hi). by vm_compute.
Defined.

(** C1, as the claim words it, fails: the rejection's timeout does not
    always put the ready message back.  Here a second request is accepted
    within the three seconds, and the timeout finds the countdown on the
    status line and leaves it there. *)
Lemma rejection_not_always_reverted :
  ¬ (∀ (s : State) (tr : list Event),
       predictBtn_disabled (page s) = false →
       currentSignal s ≠ FacePresent →
       let s2 := run (step s Click) tr in
       timers s2 !! next_timer s =
         Some (mkTimer (now s + 3000) None CbRevertStatus) →
       now s + 3000 ≤ now s2 →
       statusText (page (step s2 (Fire (next_timer s)))) = msg_ready).
Proof.
  intros H.
  pose proof (H ready overtaken_trace) as Hc. cbv zeta in Hc.
  assert (statusText
            (page (step (run (step ready Click) overtaken_trace)
                     (Fire (next_timer ready)))) = msg_ready) as Hbad.
  { apply Hc; [reflexivity | by vm_compute | by vm_compute | by vm_compute]. }
  vm_compute in Hbad. discriminate Hbad.
Qed.

(** ** Failed submissions *)

(** C2 (as amended).  When the request settles as a failure (the transport
    failed, or the status is not a success), the status line shows [Error: ]
    followed by the message of the error caught, which is the transport's
    error or the [error] string of the body; the trigger is enabled again;
    a polling timer is registered when the model is loaded, and none when
    it is not.  On a page whose markup does not show the indicator green a
    request is in flight only with the model loaded, so that polling is
    resumed there.  With the body [{"error":"bad video"}] the status line
    contains [bad video]. *)
Theorem failure_restores (s : State) (n : nat) (r : FetchOutcome) :
  fetching s = S n →
  failed r = true →
  let s' := step s (FetchSettled r) in
  (∃ err,
     log s' = log s ++ [ConsoleError "Prediction Error:" err] ∧
     statusText (page s') = "Error: " +:+ JS.err_message err ∧
     (∀ e, r = Rejected e → err = e) ∧
     (∀ ok props msg,
        r = Response ok (Json (JS.Object props)) →
        JS.own_prop props "error" = JS.Primitive (JS.Str msg) → msg ≠ "" →
        JS.err_message err = msg)) ∧
  predictBtn_disabled (page s') = false ∧
  (model s = true →
   faceCheckInterval s' = Some (next_timer s) ∧
   timers s' !! next_timer s =
     Some (mkTimer (now s + 500) (Some 500) CbDetectFace) ∧
   polling s') ∧
  (model s = false →
   faceCheckInterval s' = faceCheckInterval s ∧ timers s' = timers s) ∧
  (∀ p model_loads tr,
     JS.classList_contains (faceIndicator_className p) "green" = false →
     s = run (booted p model_loads) tr →
     model s = true) ∧
  (r = Response false
         (Json (JS.Object [("error", JS.Primitive (JS.Str "bad video"))])) →
   JS.includes (statusText (page s')) "bad video" = true).
Proof.
  intros Hf Hr s'.
  assert (∀ p model_loads tr,
            JS.classList_contains (faceIndicator_className p) "green" = false →
            s = run (booted p model_loads) tr → model s = true) as Hreach.
  { intros p ml tr Hg ->. apply fetching_model; [done|]. by rewrite Hf. }
  assert (predictBtn_disabled (page s') = false ∧
          (model s = true →
           faceCheckInterval s' = Some (next_timer s) ∧
           timers s' !! next_timer s =
             Some (mkTimer (now s + 500) (Some 500) CbDetectFace)) ∧
          (model s = false →
           faceCheckInterval s' = faceCheckInterval s ∧ timers s' = timers s))
    as (Hbtn & Hon & Hoff).
  { subst s'. clear Hreach Hr. open_state s. subst fe.
    cases; cbn; repeat split; intros; lk; done. }
  split; [|split; [done|split; [|split; [done|split; [done|]]]]].
  - subst s'. clear Hreach Hbtn Hon Hoff.
    destruct r as [e|[] body]; [|done|].
    + open_state s. subst fe. destruct md; script; cbn.
      all: eexists; (split; [reflexivity|]); (split; [reflexivity|]);
        split; intros; simplify_eq; done.
    + open_state s. subst fe. destruct body as [e|v]; script.
      * destruct md; script; cbn.
        all: eexists; (split; [reflexivity|]); (split; [reflexivity|]);
          split; intros; simplify_eq.
      * destruct (JS.get v "error") as [e|error] eqn:Hget; script.
        { destruct md; script; cbn.
          all: eexists; (split; [reflexivity|]); (split; [reflexivity|]);
            split; intros; simplify_eq. }
        destruct (JS.ToBoolean error) eqn:Hb; script.
        all: destruct (JS.ToString _) as [e|message] eqn:Hm; script.
        all: destruct md; script; cbn.
        all: eexists; (split; [reflexivity|]); (split; [reflexivity|]);
          split; intros; simplify_eq; cbn in *; simplify_eq; cbn in *.
        all: try match goal with
               | H : JS.own_prop _ _ = _ |- _ => rewrite H in *; cbn in *
             end; simplify_eq; try done.
        all: try (apply negb_false_iff, String.eqb_eq in Hb; done).
  - intros Hm. destruct (Hon Hm) as (Hi & Ht). do 2 (split; [done|]).
    by eexists _, _.
  - intros ->. subst s'. clear -Hf. open_state s. subst fe.
    destruct md; by vm_compute.
Qed.

Lemma failure_restores_witness :
  statusText
    (page (step (with_fetching 1 face_seen)
             (FetchSettled
                (Response false
                   (Json (JS.Object
                            [("error", JS.Primitive (JS.Str "bad video"))]))))))
  = "Error: bad video".
Proof.
  destruct (failure_restores (with_fetching 1 face_seen) 0
              (Response false
                 (Json (JS.Object
                          [("error", JS.Primitive (JS.Str "bad video"))])))
              eq_refl eq_refl) as ((err & _ & Hs & _ & Hm) & _).
  rewrite Hs,
    (Hm false [("error", JS.Primitive (JS.Str "bad video"))] "bad video");
    done.
Defined.

(** C2, as the claim words it, fails: polling is not resumed after every
    failure.  On a page whose markup shows the indicator green and whose
    model failed to load, a request is accepted, recorded and submitted;
    when the submission fails the trigger is enabled again, but line 142
    finds no model and no polling timer is registered. *)
Lemma polling_not_always_resumed :
  ¬ (∀ (p : Page) (model_loads : JS.Error + unit) (tr : list Event)
       (r : FetchOutcome),
       let s := run (booted p model_loads) tr in
       fetching s ≠ 0%nat →
       failed r = true →
       predictBtn_disabled (page (step s (FetchSettled r))) = false ∧
       polling (step s (FetchSettled r))).
Proof.
  intros H.
  destruct (H green_page (inl (JS.mkError "Error" "no backend"))
              blind_session
              (Rejected (JS.mkError "TypeError" "Failed to fetch")))
    as [_ Hp]; [by vm_compute | done |].
  apply polling_pending in Hp as (id & Hin).
  vm_compute in Hin. by apply list_elem_of_singleton in Hin.
Qed.

(** C10 (as amended).  A session whose submission fails before anything
    is rendered (the transport failed, the status is not a success, or a
    success status carries a body that is not JSON) leaves the result
    display as the accepted request set it: the three values are those from
    before the session, the placeholder is shown and the grid hidden.
    Nothing between the accepted request and the failure renders a result,
    and the failure itself does not touch the display.  A success status
    with a JSON body, however, has switched the panels by the time anything
    in the rendering can throw: the grid is shown and the placeholder
    hidden even when the settlement ends in the catch clause. *)
Theorem failed_submission_keeps_results (s : State) (tr : list Event)
    (r : FetchOutcome) :
  predictBtn_disabled (page s) = false →
  currentSignal s = FacePresent →
  Forall (λ e, is_rendering e = false) tr →
  unrendered r = true →
  results (run (step s Click) (tr ++ [FetchSettled r])) =
    (hrValue (page s), bpValue (page s), stressValue (page s),
     "block", "none") ∧
  (∀ s2, results (step s2 (FetchSettled r)) = results s2) ∧
  (∀ s2 n v,
     fetching s2 = S n →
     let s3 := step s2 (FetchSettled (Response true (Json v))) in
     resultsPlaceholder_display (page s3) = "none" ∧
     resultsGrid_display (page s3) = "flex").
Proof.
  intros Hb Hg Htr Hr.
  split; [|split; [intros; by apply step_results_unrendered|]].
  - apply run_results_kept.
    + apply Forall_app. split; [done|].
      constructor; [by apply unrendered_not_rendering|constructor].
    + by apply accept_results.
  - intros s2 n v Hf. by apply (rendering_switches_panels s2 n v).
Qed.

Lemma failed_submission_keeps_results_witness :
  results
    (run (step face_seen Click)
       ((recorded_trace ++ [RecorderStopped]) ++
          [FetchSettled
             (Response true
                (NotJson
                   (JS.mkError "SyntaxError"
                      "Unexpected end of JSON input")))]))
  = ("", "", "", "block", "none").
Proof.
  refine (proj1 (failed_submission_keeps_results face_seen
                   (recorded_trace ++ [RecorderStopped])
                   (Response true
                      (NotJson (JS.mkError "SyntaxError"
                                  "Unexpected end of JSON input")))
                   eq_refl _ _ eq_refl)).
  - by vm_compute.
  - repeat constructor.
Defined.

(** C10, as the claim words it, fails: not every submission that fails
    leaves the display unchanged.  A success status with the body [null]
    ends in the catch clause, the status line reporting the TypeError of
    line 152; by then lines 150-151 have hidden the placeholder and shown
    the grid. *)
Lemma failure_while_rendering_shows_grid :
  ¬ (∀ (s : State) (tr : list Event) (r : FetchOutcome),
       predictBtn_disabled (page s) = false →
       currentSignal s = FacePresent →
       Forall (λ e, is_settlement e = false) tr →
       let s2 := run (step s Click) tr in
       fetching s2 ≠ 0%nat →
       caught s2 r →
       results (step s2 (FetchSettled r)) =
         (hrValue (page s), bpValue (page s), stressValue (page s),
          "block", "none")).
Proof.
  intros H.
  pose proof (H face_seen (recorded_trace ++ [RecorderStopped])
                (Response true (Json (JS.Primitive JS.Null)))) as Hc.
  cbv zeta in Hc.
  assert (results
            (step (run (step face_seen Click)
                     (recorded_trace ++ [RecorderStopped]))
               (FetchSettled (Response true (Json (JS.Primitive JS.Null)))))
          = ("", "", "", "block", "none")) as Hbad.
  { apply Hc; [reflexivity | by vm_compute | repeat constructor
              | by vm_compute |].
    exists (JS.null_read_error "heart_rate"). by vm_compute. }
  vm_compute in Hbad. discriminate Hbad.
Qed.

(** ** The response body *)

(** C7, as the claim words it, fails: a success status with the body [{}],
    which has none of the three fields, is rendered. *)
Lemma malformed_body_is_rendered :
  ¬ (∀ (s : State) (n : nat) (v : JS.Value),
       fetching s = S n → metrics_shape v = false →
       let s' := step s (FetchSettled (Response true (Json v))) in
       results s' = results s ∧ statusText (page s') ≠ msg_complete).
Proof.
  intros H.
  destruct (H (with_fetching 1 face_seen) 0%nat
              (JS.Object []) eq_refl eq_refl) as [_ Hs].
  by apply Hs.
Qed.

(** A value that converts to a string converts to a number. *)
Lemma ToString_gt v a k :
  JS.ToString v = inr a → ∃ b, JS.gt v k = inr b.
Proof.
  unfold JS.ToString, JS.gt, JS.ToNumber.
  destruct (JS.ToPrimitive v); [done|eauto].
Qed.

Lemma stressLevel_total hr sbp a b :
  JS.ToString hr = inr a → JS.ToString sbp = inr b →
  ∃ level, stressLevel hr sbp = inr level.
Proof.
  intros Ha Hb. unfold stressLevel.
  destruct (ToString_gt hr a 100 Ha) as [[] ->],
    (ToString_gt sbp b 135 Hb) as [[] ->],
    (ToString_gt hr a 85 Ha) as [[] ->],
    (ToString_gt sbp b 125 Hb) as [[] ->]; cbn; eauto.
Qed.

(** C7 (as amended).  A success status whose body is not JSON fails: the
    status line shows the parse error and the display is untouched.  A
    success status whose body is JSON is rendered as it is, without any
    test of its shape.  Where the three properties can be read (on
    anything but [null]), each is shown through ToString, a missing one as
    [undefined], the stress level follows the thresholds, and the status
    line announces completion.  Only a conversion that throws stops the
    rendering, at the field concerned: the catch clause then reports that
    error, the panels being switched and the earlier fields written. *)
Theorem success_body_is_not_validated (s : State) (n : nat) :
  fetching s = S n →
  (∀ e,
     let s' := step s (FetchSettled (Response true (NotJson e))) in
     statusText (page s') = "Error: " +:+ JS.err_message e ∧
     results s' = results s) ∧
  (∀ v heart_rate systolic_bp diastolic_bp,
     JS.get v "heart_rate" = inr heart_rate →
     JS.get v "systolic_bp" = inr systolic_bp →
     JS.get v "diastolic_bp" = inr diastolic_bp →
     let s' := step s (FetchSettled (Response true (Json v))) in
     (∀ a b c,
        JS.ToString heart_rate = inr a →
        JS.ToString systolic_bp = inr b →
        JS.ToString diastolic_bp = inr c →
        ∃ level,
          stressLevel heart_rate systolic_bp = inr level ∧
          statusText (page s') = msg_complete ∧
          results s' =
            (a +:+ " bpm", b +:+ "/" +:+ c +:+ " mmHg", level,
             "none", "flex")) ∧
     (∀ err,
        JS.ToString heart_rate = inl err →
        statusText (page s') = "Error: " +:+ JS.err_message err ∧
        results s' =
          (hrValue (page s), bpValue (page s), stressValue (page s),
           "none", "flex")) ∧
     (∀ a err,
        JS.ToString heart_rate = inr a →
        JS.ToString systolic_bp = inl err ∨
        (∃ b, JS.ToString systolic_bp = inr b) ∧
        JS.ToString diastolic_bp = inl err →
        statusText (page s') = "Error: " +:+ JS.err_message err ∧
        results s' =
          (a +:+ " bpm", bpValue (page s), stressValue (page s),
           "none", "flex"))).
Proof.
  intros Hf. split.
  - intros e s'. subst s'. open_state s. subst fe. cases; done.
  - intros v heart_rate systolic_bp diastolic_bp Hh Hs Hd s'.
    split; [|split].
    + intros a b c Ha Hb Hc.
      destruct (stressLevel_total _ _ _ _ Ha Hb) as [level Hl].
      exists level. split; [done|].
      subst s'. open_state s. subst fe.
      rewrite Hh, Hs, Hd, Ha, Hb, Hc, Hl. script. cases; done.
    + intros err Ha. subst s'. open_state s. subst fe.
      rewrite Hh, Ha. script. cases; done.
    + intros a err Ha [Hb | [[b Hb] Hc]]; subst s'; open_state s; subst fe.
      * rewrite Hh, Hs, Ha, Hb. script. cases; done.
      * rewrite Hh, Hs, Hd, Ha, Hb, Hc. script. cases; done.
Qed.

Lemma success_body_is_not_validated_witness :
  results
    (step (with_fetching 1 face_seen)
       (FetchSettled (Response true (Json (JS.Object [])))))
  = ("undefined bpm", "undefined/undefined mmHg", "Normal", "none", "flex").
Proof.
  destruct (proj1 (proj2 (success_body_is_not_validated
                            (with_fetching 1 face_seen) 0 eq_refl)
                     (JS.Object []) _ _ _ eq_refl eq_refl eq_refl)
              "undefined" "undefined" "undefined" eq_refl eq_refl eq_refl)
    as (level & Hl & _ & Hr).
  rewrite Hr. injection Hl as <-. reflexivity.
Defined.

(** ** The stress level *)

(** C4 (as amended).  For a result whose three fields are numbers (any
    Numbers, fractions, infinities and NaN included), the rendered stress
    level is High when the heart rate is above 100 or the systolic pressure
    above 135, otherwise Moderate when the heart rate is above 85 or the
    systolic pressure above 125, otherwise Normal.  So (101,100) is High,
    (90,120) Moderate and (70,110) Normal.  The bounds are exclusive:
    (100,135) is not High, but Moderate, being above 85; (85,125) is
    Normal; and the first fractions above a bound count, (100.5,0) being
    High and (0,125.5) Moderate. *)
Theorem stress_level_thresholds (s : State)
    (props : list (string * JS.Value)) (hr sbp dbp : float) :
  JS.own_prop props "heart_rate" = JS.num hr →
  JS.own_prop props "systolic_bp" = JS.num sbp →
  JS.own_prop props "diastolic_bp" = JS.num dbp →
  stressValue (page (run_handler (displayResults (JS.Object props)) s)) =
    (if PrimFloat.ltb 100 hr || PrimFloat.ltb 135 sbp then "High"
     else if PrimFloat.ltb 85 hr || PrimFloat.ltb 125 sbp then "Moderate"
     else "Normal") ∧
  stressLevel (JS.num 101) (JS.num 100) = inr "High" ∧
  stressLevel (JS.num 90) (JS.num 120) = inr "Moderate" ∧
  stressLevel (JS.num 70) (JS.num 110) = inr "Normal" ∧
  stressLevel (JS.num 100) (JS.num 135) = inr "Moderate" ∧
  stressLevel (JS.num 85) (JS.num 125) = inr "Normal" ∧
  stressLevel (JS.num 100.5) (JS.num 0) = inr "High" ∧
  stressLevel (JS.num 0) (JS.num 125.5) = inr "Moderate".
Proof.
  intros Hhr Hsbp Hdbp. split; [|repeat split; reflexivity].
  destruct s as [[] ]. script. cbn [JS.get]. rewrite Hhr, Hsbp, Hdbp.
  unfold JS.num, JS.ToString, stressLevel, JS.gt, JS.ToNumber, JS.or_else.
  cbn [JS.ToPrimitive JS.PrimToNumber].
  destruct (PrimFloat.ltb 100 hr), (PrimFloat.ltb 135 sbp),
    (PrimFloat.ltb 85 hr), (PrimFloat.ltb 125 sbp); reflexivity.
Qed.

Lemma stress_level_thresholds_witness :
  stressValue
    (page (run_handler
             (displayResults
                (JS.Object [("heart_rate", JS.num 95);
                            ("systolic_bp", JS.num 130);
                            ("diastolic_bp", JS.num 85)]))
             face_seen)) = "Moderate".
Proof.
  exact (proj1 (stress_level_thresholds face_seen
                  [("heart_rate", JS.num 95); ("systolic_bp", JS.num 130);
                   ("diastolic_bp", JS.num 85)] 95 130 85
                  eq_refl eq_refl eq_refl)).
Defined.

(** C4, as the claim words it, fails in its last example: a heart rate of
    100 with a systolic pressure of 135 is not Normal. *)
Lemma boundary_is_not_normal :
  stressLevel (JS.num 100) (JS.num 135) ≠ inr "Normal".
Proof. by vm_compute. Qed.

(** ** The face monitor *)

(** C5.  The signal is that of the last detection that settled with a
    result: FacePresent if it found a region, FaceAbsent if not; events that
    are no such settlement leave it alone.  A poll without the model or with
    the video not ready does nothing.  A detection that settles with an
    error is reported on the console and changes nothing else. *)
Theorem signal_follows_last_detection (s : State) :
  (∀ tr,
     Forall (λ e, is_detection e = false) tr →
     currentSignal (run s tr) = currentSignal s) ∧
  (∀ tr n tr',
     detecting (run s tr) ≠ 0%nat →
     Forall (λ e, is_detection e = false) tr' →
     currentSignal (run s (tr ++ FacesSettled (inr n) :: tr')) =
       if (0 <? n)%nat then FacePresent else FaceAbsent) ∧
  (model s = false ∨ webcam_readyState (page s) < 2 →
   detectFace_begin s = (s, inr ())) ∧
  (∀ k err,
     detecting s = S k →
     step s (FacesSettled (inl err)) =
       with_log (log s ++ [ConsoleError "Error during face detection:" err])
         (with_detecting k s)).
Proof.
  repeat split.
  - apply run_signal.
  - intros tr n tr' Hd Htr'.
    rewrite run_app. change (run ?x (?e :: ?l)) with (run (step x e) l).
    rewrite run_signal by done.
    destruct (detecting (run s tr)) eqn:E; [done|].
    by erewrite detection_sets_signal.
  - intros H. open_state s. destruct H as [-> | H]; [done|].
    apply Z.ltb_lt in H. rewrite H. by rewrite orb_true_r.
  - intros k err Hd. open_state s. by subst det.
Qed.

Lemma signal_follows_last_detection_witness :
  currentSignal
    (run ready
       ([Advance 500; Fire 1%nat] ++
        FacesSettled (inr 1%nat) ::
        [Advance 500; Fire 1%nat;
         FacesSettled (inl (JS.mkError "Error" "backend lost"))]))
  = FacePresent.
Proof.
  refine (proj1 (proj2 (signal_follows_last_detection ready))
            [Advance 500; Fire 1%nat] 1%nat
            [Advance 500; Fire 1%nat;
             FacesSettled (inl (JS.mkError "Error" "backend lost"))] _ _).
  - by vm_compute.
  - repeat constructor.
Defined.

(** C9.  Stopping the polling twice: the second [clearInterval] throws
    nothing and changes nothing.  Stopping the recorder through the guard of
    line 118: a second stop, or a stop while nothing is being recorded,
    throws nothing, changes nothing, and queues no stop notification, so
    that no payload is assembled or submitted. *)
Theorem stops_are_idempotent (s : State) (state : RecordingState) :
  mediaRecorder s = Some state →
  let stop_polling := let* id := read faceCheckInterval in clearInterval id in
  (∃ s1, stop_polling s = (s1, inr ()) ∧ stop_polling s1 = (s1, inr ())) ∧
  (∃ s1, stop_recorder s = (s1, inr ()) ∧ stop_recorder s1 = (s1, inr ())) ∧
  (state ≠ recording →
   stop_recorder s = (s, inr ()) ∧
   (stop_queued s = false → step s RecorderStopped = s)).
Proof.
  intros Hm sp. subst sp. open_state s. subst mr.
  repeat split.
  - eexists. split; [done|]. destruct fci; [|done]. cbn.
    by rewrite delete_delete_eq.
  - destruct state; eexists; split; done.
  - by destruct state.
  - by intros ->.
Qed.

Lemma stops_are_idempotent_witness :
  stop_recorder face_seen = (face_seen, inr ()).
Proof.
  exact (proj1 (proj2 (proj2 (stops_are_idempotent face_seen inactive eq_refl))
                  ltac:(discriminate))).
Defined.

(** ** The recording session *)



(** C6.  In a state the page reaches, after an accepted request nothing is
    submitted before the recorder's stop notification.  When it comes, one
    request is made; its payload is a [video/webm] blob holding the bytes of
    all the data delivered since the request, in the order delivered; the
    buffer is emptied.  Across the session one recording was started and one
    request made, and from then on the requests made are as many as the
    recordings started, less the one still capturing if there is one. *)
Theorem recording_is_submitted_once (s : State) (tr : list Event) :
  Inv s →
  predictBtn_disabled (page s) = false →
  currentSignal s = FacePresent →
  Forall (λ e, e ≠ RecorderStopped) tr →
  let s2 := run (step s Click) tr in
  let s3 := step s2 RecorderStopped in
  let payload := mkBlob "video/webm" (concat (blob_data <$> delivered tr)) in
  tally is_fetch (log s2) = tally is_fetch (log s) ∧
  (stop_queued s2 = true →
   log s3 =
     log s2 ++ [Fetch "/predict" "POST" "video_blob" payload "recording.webm"] ∧
   recordedChunks s3 = [] ∧
   fetching s3 = 1%nat ∧
   tally is_start (log s3) = S (tally is_start (log s)) ∧
   tally is_fetch (log s3) = S (tally is_fetch (log s)) ∧
   ∀ tr',
     let s4 := run s3 tr' in
     tally is_start (log s4) =
       (tally is_fetch (log s4) + if capturing s4 then 1 else 0)%nat).
Proof.
  intros HI Hb Hg Htr s2 s3 payload.
  destruct (accept_starts s HI Hb Hg) as (Hl & _ & _ & _ & _ & Hch & Hc & _).
  destruct (run_capturing _ tr Hc Htr) as (Hc2 & Hch2 & Hf2).
  fold s2 in Hc2, Hch2, Hf2. rewrite Hch in Hch2. cbn in Hch2.
  assert (Inv s2) as HI2 by (by apply Inv_run, Inv_step).
  assert (tally is_fetch (log s2) = tally is_fetch (log s)) as Hfs.
  { rewrite Hf2, Hl, tally_snoc. cbn. lia. }
  split; [done|]. intros Hq.
  assert (Inv s3) as HI3 by (by apply Inv_step).
  pose proof (inv_stages _ HI2) as Hst.
  pose proof (inv_starts _ HI) as Hs0.
  pose proof (inv_enabled _ HI Hb) as Hidle.
  pose proof (inv_starts _ HI3) as Hs3.
  assert (log s3 =
            log s2 ++ [Fetch "/predict" "POST" "video_blob" payload "recording.webm"] ∧
          recordedChunks s3 = [] ∧ fetching s3 = 1%nat ∧ capturing s3 = false)
    as (Hl3 & Hch3 & Hfe3 & Hc3).
  { subst s3 payload. rewrite <- kept_data. revert Hq Hst Hch2.
    generalize s2. intros s'. open_state s'. intros -> Hst ->.
    cbn in *. unfold new_Blob.
    destruct (bool_decide (mr = Some recording)) eqn:E; cbn in *; [lia|].
    assert (fe = 0%nat) as -> by lia. done. }
  assert (capturing s = false) as Hc0.
  { revert Hidle. clear. open_state s.
    destruct (bool_decide _); destruct sq; cbn; done. }
  rewrite Hc0 in Hs0. rewrite Hc3 in Hs3.
  assert (tally is_fetch (log s3) = S (tally is_fetch (log s))) as Hf3.
  { rewrite Hl3, tally_snoc, Hfs. cbn. lia. }
  do 3 (split; [done|]).
  split; [lia|]. split; [done|].
  intros tr' s4. apply inv_starts. by apply Inv_run.
Qed.

Lemma recording_is_submitted_once_witness :
  log (step (run (step face_seen Click) recorded_trace) RecorderStopped) =
    log (run (step face_seen Click) recorded_trace) ++
    [Fetch "/predict" "POST" "video_blob"
       (mkBlob "video/webm" [Byte.x1a; Byte.x45]) "recording.webm"].
Proof.
  refine (proj1 (proj2 (recording_is_submitted_once face_seen recorded_trace
                          Inv_face_seen eq_refl _ _) _)).
  - by vm_compute.
  - unfold recorded_trace. repeat constructor; discriminate.
  - by vm_compute.
Defined.

(** ** Polling and the session *)

(** C8 (as amended).  In every state the page reaches, no polling timer is
    pending while a session is under way (recording, awaiting the stop
    notification, or with the request in flight).  An accepted request
    opens the session with the polling already stopped.  Polling starts
    again only when the request settles, which ends the session.  The
    polling callbacks never write the status line.  The countdown interval
    is no part of this exclusion: nothing but its own ticks clears it, so
    the settlement of the request leaves it pending beside the polling
    timer it registers, and a tick of it that is due writes the status
    line whether a session is under way or not. *)
Theorem polling_pauses_for_session (s : State) :
  Inv s →
  (∀ tr, in_session (run s tr) = true → ¬ polling (run s tr)) ∧
  (predictBtn_disabled (page s) = false → currentSignal s = FacePresent →
   in_session (step s Click) = true ∧ ¬ polling (step s Click)) ∧
  (∀ e, ¬ polling s → polling (step s e) →
        ∃ r, e = FetchSettled r ∧ in_session s = true ∧
             in_session (step s e) = false) ∧
  (∀ e, is_poll_event s e →
        statusText (page (step s e)) = statusText (page s)) ∧
  (∀ r id t c,
     timers s !! id = Some t → callback t = CbCountdown c →
     timers (step s (FetchSettled r)) !! id = Some t) ∧
  (∀ id t c,
     timers s !! id = Some t → callback t = CbCountdown c → due t ≤ now s →
     statusText (page (step s (Fire id))) = msg_recording (c - 1)).
Proof.
  intros HI. repeat split.
  - intros tr. apply inv_exclusive. by apply Inv_run.
  - destruct (accept_starts s HI H H0) as (_ & _ & _ & _ & _ & _ & Hc & _).
    unfold in_session. by rewrite Hc.
  - by destruct (accept_starts s HI H H0) as (_ & _ & _ & _ & _ & _ & _ & Hp).
  - intros e Hn Hp. destruct (polling_restart s e Hn Hp) as (r & -> & Hf).
    exists r. split; [done|]. by apply settle_ends_session.
  - apply poll_keeps_status.
  - intros r id t c Ht _. apply settle_keeps_timers; [done|].
    by apply (inv_fresh _ HI id t).
  - apply fire_countdown.
Qed.

Lemma polling_pauses_for_session_witness :
  ¬ polling (run face_seen (Click :: recorded_trace ++ [RecorderStopped])).
Proof.
  refine (proj1 (polling_pauses_for_session face_seen Inv_face_seen)
            (Click :: recorded_trace ++ [RecorderStopped]) _).
  by vm_compute.
Defined.

(** C8, as the claim words it, fails: the polling timer and the countdown
    interval can be pending together, and the countdown then writes the
    status line while the monitor polls.  Here a session runs its thirty
    seconds without the countdown interval getting to tick; the request
    fails, the status line reports it and polling starts again; the
    countdown interval, still pending, then ticks and puts [Recording...
    29s remaining] on the status line. *)
Lemma countdown_outlives_session :
  ¬ (∀ (p : Page) (model_loads : JS.Error + unit) (tr : list Event),
       let s := run (booted p model_loads) tr in
       polling s → ¬ counting s).
Proof.
  intros H.
  apply (H blank_page (inr ())
           ([ReadyState 4; Advance 500; Fire 1%nat; FacesSettled (inr 1%nat)]
            ++ failed_session)).
  - apply polling_pending. exists 4%nat. vm_compute. set_solver.
  - apply counting_pending. exists 2%nat, 30. vm_compute. set_solver.
Qed.

(** ** Further properties of the script *)

(** X1.  In every state the page reaches after its start-up, at most one
    of these holds: the recorder is recording, its stop notification is
    awaited, a request is in flight.  The trigger is enabled only when none
    holds, so that a click during a session does nothing. *)
Theorem sessions_never_overlap (p : Page) (r : JS.Error + unit)
    (tr : list Event) :
  let s := run (booted p r) tr in
  (stages s ≤ 1)%nat ∧
  (predictBtn_disabled (page s) = false → stages s = 0%nat) ∧
  (in_session s = true → step s Click = s).
Proof.
  intros s. assert (Inv s) as HI by apply Inv_run, Inv_booted.
  split; [apply HI|]. split; [apply HI|].
  intros Hs. pose proof (inv_enabled _ HI) as He.
  revert Hs He. generalize s. clear. intros s. open_state s.
  destruct dis; [done|]. intros Hs He. specialize (He eq_refl).
  destruct (bool_decide_reflect (mr = Some recording)), sq;
    cbn in *; try lia.
  destruct (bool_decide_reflect (0 < fe)%nat); [lia|done].
Qed.

Lemma step_uncaught s e :
  Inv s →
  tally is_uncaught (log (step s e)) = tally is_uncaught (log s).
Proof.
  intros [H1 H2 H3 H4 H5 H6 H7 H8 H9 H10 H11].
  destruct e.
  all: try (open_state s; cases; cbn in *; rewrite ?tally_snoc; cbn;
            try done; try lia; fail).
  - open_state s. destruct dis; [done|]. specialize (H7 eq_refl).
    destruct H1 as [-> | ->]; cbn in *; [|done].
    cases; cbn in *; rewrite ?tally_snoc; cbn; try done; lia.
  - pose proof (H8 id) as Hs.
    open_state s.
    destruct (tm !! id) as [[d p' cb]|] eqn:Hid; [|done].
    destruct cb; cases; cbn in *; rewrite ?tally_snoc; cbn;
      try done; try lia.
    all: destruct (Hs _ eq_refl eq_refl) as [Hm _]; congruence.
Qed.

(** X2.  After a start-up in which the camera was granted, no handler
    ever lets an exception escape: in every state the page reaches, none
    has been reported as uncaught.  In particular [start] is only called on
    an inactive recorder and [state] only read once the recorder exists.
    After a refused camera this is not so.  The recorder was never
    constructed, and where the markup leaves the trigger enabled and shows
    the indicator green, a click gets as far as line 116, which throws.
    Nobody catches the error; by then the trigger is disabled and the
    countdown registered, no stop timeout follows, and the trigger stays
    disabled whatever happens next. *)
Theorem no_uncaught_errors (p : Page) (r : JS.Error + unit)
    (tr : list Event) :
  tally is_uncaught (log (run (booted p r) tr)) = 0%nat ∧
  (∀ err,
     predictBtn_disabled p = false →
     JS.classList_contains (faceIndicator_className p) "green" = true →
     let s0 := camera_refused p r err in
     let s := step s0 Click in
     log s =
       log s0 ++
       [Uncaught
          (JS.mkError "TypeError"
             "Cannot read properties of undefined (reading 'start')")] ∧
     timers s =
       <[next_timer s0 :=
           mkTimer (now s0 + 1000) (Some 1000) (CbCountdown 30)]>
         (timers s0) ∧
     ∀ tr', predictBtn_disabled (page (run s tr')) = true).
Proof.
  split.
  - induction tr as [|e tr IH] using rev_ind.
    + destruct p, r as [e|[]]; reflexivity.
    + rewrite run_snoc, step_uncaught; [done|]. apply Inv_run, Inv_booted.
  - intros err Hb Hg s0 s.
    assert (log s =
              log s0 ++
              [Uncaught
                 (JS.mkError "TypeError"
                    "Cannot read properties of undefined (reading 'start')")] ∧
            timers s =
              <[next_timer s0 :=
                  mkTimer (now s0 + 1000) (Some 1000) (CbCountdown 30)]>
                (timers s0) ∧
            Stuck s) as (Hl & Ht & Hs).
    { subst s s0. destruct p, r as [e|[]]; cbn in Hb, Hg; subst;
        unfold camera_refused, initial; script; cbn; rewrite Hg;
        script; cbn; repeat split; done. }
    do 2 (split; [done|]). intros tr'.
    apply stuck_button. by apply Stuck_run.
Qed.

Lemma no_uncaught_errors_witness :
  tally is_uncaught
    (log (step (camera_refused (set_predictBtn_disabled false green_page)
                  (inr ())
                  (JS.mkError "NotAllowedError" "Permission denied"))
            Click))
  = 1%nat.
Proof.
  destruct (proj2 (no_uncaught_errors
                     (set_predictBtn_disabled false green_page) (inr ()) [])
              (JS.mkError "NotAllowedError" "Permission denied")
              eq_refl ltac:(by vm_compute)) as (Hl & _).
  rewrite Hl. reflexivity.
Defined.

(** X3.  When the model fails to load and the markup does not show the
    indicator green, no measurement ever happens: whatever the events, no
    polling timer is registered, no detection is asked for, the signal
    never becomes FacePresent and the recorder is never started; yet the
    trigger is enabled throughout, and every click on it is rejected. *)
Theorem no_model_no_measurement (p : Page) (err : JS.Error)
    (tr : list Event) :
  JS.classList_contains (faceIndicator_className p) "green" = false →
  let s := run (booted p (inl err)) tr in
  ¬ polling s ∧
  currentSignal s ≠ FacePresent ∧
  in_session s = false ∧
  tally is_estimate (log s) = 0%nat ∧
  tally is_start (log s) = 0%nat ∧
  predictBtn_disabled (page s) = false ∧
  step s Click = reject s.
Proof.
  intros Hg s.
  destruct (Blind_run p err tr Hg) as [H1 H2 H3 Hb H4 H5 H6 H7 [H8 H9]].
  fold s in H1, H2, H3, Hb, H4, H5, H6, H7, H8, H9.
  split; [|split; [|split; [|split; [|split; [|split]]]]]; try done.
  - intros (id & t & Ht & Hc). rewrite (H2 _ _ Ht) in Hc. discriminate.
  - rewrite signal_green. congruence.
  - unfold in_session, capturing, submitting. rewrite H5, H6, H7. done.
  - by apply click_rejects.
Qed.

Lemma no_model_no_measurement_witness :
  tally is_start
    (log (run (booted blank_page (inl (JS.mkError "Error" "no backend")))
            [ReadyState 4; Advance 500; Click; Advance 3000; Fire 1%nat]))
  = 0%nat.
Proof.
  refine (proj1 (proj2 (proj2 (proj2 (proj2
            (no_model_no_measurement blank_page
               (JS.mkError "Error" "no backend")
               [ReadyState 4; Advance 500; Click; Advance 3000; Fire 1%nat]
               _)))))).
  by vm_compute.
Defined.

Lemma Dark_step s e :
  Dark s →
  Dark (step s e) ∧ log (step s e) = log s ∧
  faceIndicator_className (page (step s e)) =
    faceIndicator_className (page s).
Proof.
  intros [H1 H2 H3 H4 H5 H6 H7 H8].
  destruct e; open_state s; subst; rewrite ?lookup_empty; script; cases;
    (split; [constructor|]); done.
Qed.

(** X4.  When the camera is refused and the markup has the trigger
    disabled, the page stays as the catch clause of lines 59-63 left it:
    the status line and the indicator keep announcing the camera error, the
    trigger stays disabled, no recorder exists, and no event makes the
    script call any of its collaborators. *)
Theorem camera_error_is_final (p : Page) (r : JS.Error + unit)
    (err : JS.Error) (tr : list Event) :
  predictBtn_disabled p = true →
  let s0 := camera_refused p r err in
  let s := run s0 tr in
  statusText (page s) = msg_webcam_error ∧
  faceIndicator_textContent (page s) = "Camera Error" ∧
  faceIndicator_className (page s) = faceIndicator_className p ∧
  predictBtn_disabled (page s) = true ∧
  mediaRecorder s = None ∧
  log s = log s0.
Proof.
  intros Hb s0 s.
  assert (Dark s ∧ log s = log s0 ∧
          faceIndicator_className (page s) = faceIndicator_className p)
    as ([H1 H2 H3 H4 H5 H6 H7 H8] & Hl & Hc).
  { subst s. induction tr as [|e tr IH] using rev_ind.
    - split; [|split; [done|]]; subst s0; destruct p, r as [e|[]];
        cbn in Hb; subst; try done; by constructor.
    - rewrite run_snoc. destruct IH as (HD & Hl & Hc).
      destruct (Dark_step (run s0 tr) e HD) as (HD' & Hl' & Hc').
      split; [done|]. split; congruence. }
  done.
Qed.

Lemma camera_error_is_final_witness :
  statusText
    (page (run (camera_refused blank_page (inr ())
                  (JS.mkError "NotAllowedError" "Permission denied"))
             [Click; Advance 3000; Fire 1%nat]))
  = msg_webcam_error.
Proof.
  exact (proj1 (camera_error_is_final blank_page (inr ())
                  (JS.mkError "NotAllowedError" "Permission denied")
                  [Click; Advance 3000; Fire 1%nat] eq_refl)).
Defined.

(** X5.  The finally clause runs for every outcome of the request, a
    rendered result and an error thrown while rendering included: the
    trigger is enabled, the request is no longer in flight, and a polling
    timer is registered under a fresh id when the model is loaded, and none
    when it is not. *)
Theorem settlement_always_rearms (s : State) (n : nat) (r : FetchOutcome) :
  fetching s = S n →
  let s' := step s (FetchSettled r) in
  predictBtn_disabled (page s') = false ∧
  fetching s' = n ∧
  mediaRecorder s' = mediaRecorder s ∧
  (model s = true →
   faceCheckInterval s' = Some (next_timer s) ∧
   timers s' =
     <[next_timer s := mkTimer (now s + 500) (Some 500) CbDetectFace]>
       (timers s)) ∧
  (model s = false →
   faceCheckInterval s' = faceCheckInterval s ∧ timers s' = timers s).
Proof.
  intros Hf s'. subst s'. open_state s. subst fe.
  cases; cbn; repeat split; done.
Qed.

Lemma settlement_always_rearms_witness :
  predictBtn_disabled
    (page (step (with_fetching 1 face_seen)
             (FetchSettled (Response true (Json (JS.Primitive JS.Null))))))
  = false.
Proof.
  exact (proj1 (settlement_always_rearms (with_fetching 1 face_seen) 0
                  (Response true (Json (JS.Primitive JS.Null))) eq_refl)).
Defined.

(** X6.  A success status whose body is JSON but no object.  For [null],
    reading [heart_rate] throws after the panels were switched: the grid is
    shown with the values of the previous result and the placeholder hidden,
    while the status line reports the TypeError.  For a boolean, a number or
    a string every field reads as [undefined]: the result shown is
    [undefined bpm], [undefined/undefined mmHg] and Normal. *)
Theorem non_object_body (s : State) (n : nat) (p : JS.Prim) :
  fetching s = S n →
  p ≠ JS.Undefined →
  let s' := step s (FetchSettled (Response true (Json (JS.Primitive p)))) in
  if decide (p = JS.Null) then
    results s' =
      (hrValue (page s), bpValue (page s), stressValue (page s),
       "none", "flex") ∧
    statusText (page s') =
      "Error: " +:+ JS.err_message (JS.null_read_error "heart_rate") ∧
    log s' =
      log s ++ [ConsoleError "Prediction Error:"
                  (JS.null_read_error "heart_rate")]
  else
    results s' =
      ("undefined bpm", "undefined/undefined mmHg", "Normal", "none", "flex") ∧
    statusText (page s') = msg_complete ∧
    log s' = log s.
Proof.
  intros Hf Hp s'. subst s'. open_state s. subst fe.
  destruct p; try done; case_decide; try done; destruct md; by vm_compute.
Qed.

Lemma non_object_body_witness :
  results
    (step (with_fetching 1 face_seen)
       (FetchSettled (Response true (Json (JS.Primitive JS.Null)))))
  = ("", "", "", "none", "flex").
Proof.
  exact (proj1 (non_object_body (with_fetching 1 face_seen) 0 JS.Null
                  eq_refl ltac:(discriminate))).
Defined.

(** X7.  Every event writes the indicator's text and classes together or
    not at all: after any events they are both as they were, or both say
    that a face is detected, or both say that none is.  The one write of
    the text alone is line 62, in the start-up of a page whose camera is
    refused: it puts [Camera Error] beside the classes of the markup. *)
Theorem indicator_in_step (s : State) (tr : list Event) :
  (indicator (run s tr) = indicator s ∨
   indicator (run s tr) = ("Face Detected", "status-indicator green") ∨
   indicator (run s tr) = ("No Face Detected", "status-indicator red")) ∧
  (∀ p r err,
     indicator (camera_refused p r err) =
       ("Camera Error", faceIndicator_className p)).
Proof.
  split; [|by intros [] [e|[]] err].
  induction tr as [|e tr IH] using rev_ind; [by left|].
  rewrite run_snoc.
  assert (∀ s', indicator (step s' e) = indicator s' ∨
                indicator (step s' e) =
                  ("Face Detected", "status-indicator green") ∨
                indicator (step s' e) =
                  ("No Face Detected", "status-indicator red")) as Hstep.
  { clear. intros s. unfold indicator. by_event s e; cbn; auto. }
  destruct (Hstep (run s tr)) as [-> | H]; [done|by right].
Qed.

(** X8.  Two rejected requests less than three seconds apart.  The first
    rejection's timeout runs three seconds after the first request and,
    finding the rejection message on the status line, puts the ready
    message back, although the second request's own three seconds are not
    over: its timeout is still pending. *)
Theorem second_rejection_cut_short (s : State) (dt : Z) :
  predictBtn_disabled (page s) = false →
  currentSignal s ≠ FacePresent →
  0 ≤ dt ≤ 3000 →
  let first := next_timer s in
  let s' :=
    run s [Click; Advance dt; Click; Advance (3000 - dt); Fire first] in
  statusText (page s') = msg_ready ∧
  now s' = now s + 3000 ∧
  timers s' !! S first =
    Some (mkTimer (now s + dt + 3000) None CbRevertStatus).
Proof.
  rewrite signal_green. intros Hb Hg%not_true_is_false Hdt first s'.
  subst first s'. unfold run. cbn [foldl].
  rewrite (click_rejects s) by done.
  rewrite (advance_step (reject s) dt) by lia.
  rewrite (click_rejects (with_now _ (reject s)))
    by (unfold reject; cbn; done).
  rewrite (advance_step (reject (with_now _ (reject s)))) by lia.
  rewrite (fire_revert _ (next_timer s) (now s + 3000)).
  - unfold reject. cbn. rewrite lookup_delete_ne by lia.
    rewrite lookup_insert_eq. repeat split; try done; lia.
  - unfold reject. cbn. rewrite lookup_insert_ne by lia.
    by rewrite lookup_insert_eq.
  - unfold reject. cbn. lia.
  - done.
Qed.

Lemma second_rejection_cut_short_witness :
  statusText
    (page (run ready
             [Click; Advance 2000; Click; Advance (3000 - 2000); Fire 2%nat]))
  = msg_ready.
Proof.
  exact (proj1 (second_rejection_cut_short ready 2000 eq_refl
                  ltac:(by vm_compute) ltac:(lia))).
Defined.

(** One second passes and the countdown interval ticks. *)
Lemma tick_round s id d c :
  timers s !! id = Some (mkTimer d (Some 1000) (CbCountdown c)) →
  d ≤ now s + 1000 →
  let s' := run s [Advance 1000; Fire id] in
  statusText (page s') = msg_recording (c - 1) ∧
  now s' = now s + 1000 ∧
  timers s' !! id =
    (if decide (c - 1 ≤ 0) then None
     else Some (mkTimer (now s + 2000) (Some 1000) (CbCountdown (c - 1)))).
Proof.
  intros Ht Hd s'. subst s'. unfold run. cbn [foldl].
  rewrite advance_step by lia.
  open_state s. rewrite Ht. cbn [due period callback].
  rewrite decide_True by lia. script.
  destruct (Z.leb_spec (c - 1) 0); script; cbn.
  - rewrite decide_True by lia. by rewrite lookup_delete_eq.
  - rewrite decide_False by lia. rewrite lookup_alter_eq, lookup_insert_eq.
    cbn. repeat split; try done. do 2 f_equal. lia.
Qed.

Lemma ticks_run k : ∀ s id d c,
  timers s !! id = Some (mkTimer d (Some 1000) (CbCountdown c)) →
  d ≤ now s + 1000 →
  (1 ≤ k)%nat → Z.of_nat k ≤ c →
  let s' := run s (ticks id k) in
  statusText (page s') = msg_recording (c - Z.of_nat k) ∧
  now s' = now s + 1000 * Z.of_nat k ∧
  timers s' !! id =
    (if decide (Z.of_nat k = c) then None
     else Some (mkTimer (now s' + 1000) (Some 1000)
                  (CbCountdown (c - Z.of_nat k)))).
Proof.
  induction k as [|k IH]; [lia|].
  intros s id d c Ht Hd _ Hc s'. subst s'.
  change (ticks id (S k)) with ([Advance 1000; Fire id] ++ ticks id k).
  rewrite run_app.
  destruct (tick_round s id d c Ht Hd) as (Hs1 & Hn1 & Ht1).
  set (s1 := run s [Advance 1000; Fire id]) in *.
  destruct k as [|k].
  - change (run s1 (ticks id 0)) with s1.
    rewrite Hs1, Hn1, Ht1. split; [f_equal; lia|]. split; [lia|].
    repeat case_decide; try lia; try done. do 2 f_equal; lia.
  - rewrite decide_False in Ht1 by lia.
    destruct (IH s1 id _ (c - 1) Ht1) as (Hs2 & Hn2 & Ht2); [lia..|].
    rewrite Hs2, Hn2, Ht2, Hn1. split; [f_equal; lia|]. split; [lia|].
    repeat case_decide; try lia; try done. do 2 f_equal; [lia|f_equal; lia].
Qed.

Lemma accept_countdown s :
  predictBtn_disabled (page s) = false →
  currentSignal s = FacePresent →
  timers (step s Click) !! next_timer s =
    Some (mkTimer (now s + 1000) (Some 1000) (CbCountdown 30)) ∧
  now (step s Click) = now s.
Proof.
  rewrite signal_green. intros Hb Hg. open_state s. subst dis. rewrite Hg.
  script. cases; cbn; lk; try done; lia.
Qed.

(** X9.  After an accepted request the countdown, ticking once a second,
    shows 29, 28, ... seconds remaining: after [k] ticks, [30 - k].  The
    thirtieth tick shows 0 and clears the interval, so that no negative
    time is ever shown; before that the interval stays pending. *)
Theorem countdown_runs_to_zero (s : State) (k : nat) :
  predictBtn_disabled (page s) = false →
  currentSignal s = FacePresent →
  (1 ≤ k ≤ 30)%nat →
  let countdownInterval := next_timer s in
  let s' := run (step s Click) (ticks countdownInterval k) in
  statusText (page s') = msg_recording (30 - Z.of_nat k) ∧
  (k = 30%nat → timers s' !! countdownInterval = None ∧
                step s' (Fire countdownInterval) = s') ∧
  (k ≠ 30%nat →
   timers s' !! countdownInterval =
     Some (mkTimer (now s + 1000 * Z.of_nat k + 1000) (Some 1000)
             (CbCountdown (30 - Z.of_nat k)))).
Proof.
  intros Hb Hg Hk cid s'.
  destruct (accept_countdown s Hb Hg) as (Ht & Hn).
  destruct (ticks_run k (step s Click) cid _ 30 Ht) as (Hs' & Hn' & Ht');
    [lia..|].
  fold s' in Hs', Hn', Ht'.
  split; [done|]. split.
  - intros ->. rewrite decide_True in Ht' by done. split; [done|].
    revert Ht'. generalize s'. clear. intros s0 Ht0.
    open_state s0. by rewrite Ht0.
  - intros Hne. rewrite decide_False in Ht' by lia.
    rewrite Ht', Hn', Hn. done.
Qed.

Lemma countdown_runs_to_zero_witness :
  statusText (page (run (step face_seen Click) (ticks 2 30)))
  = "Recording... 0s remaining".
Proof.
  exact (proj1 (countdown_runs_to_zero face_seen 30 eq_refl
                  ltac:(by vm_compute) ltac:(lia))).
Defined.

Lemma countdowns_step s e :
  countdowns_in_range s → countdowns_in_range (step s e).
Proof.
  unfold countdowns_in_range. intros H.
  destruct e as [dt|n| |id|r0|data| |r].
  all: try (open_state s; cases; cbn; intros; lk; cbn in *; simplify_eq;
            eauto; fail).
  - open_state s; cases; cbn; intros; lk; cbn in *; simplify_eq; eauto.
    all: change (30000 `div` 1000) with 30; split; [lia|done].
  - pose proof (H id) as Hid'.
    open_state s.
    destruct (tm !! id) as [[d p' cb]|] eqn:Hid; [|done].
    specialize (Hid' _ match cb with CbCountdown c => c | _ => 0 end eq_refl).
    destruct cb; cbn [callback due period] in *; script; cases; cbn;
      intros; lk; cbn in *; simplify_eq; eauto.
    all: try (destruct (Hid' eq_refl) as [? ?]; simplify_eq).
    all: try (split; [|done]).
    all: try match goal with
           | H : (_ <=? _) = false |- _ => apply Z.leb_gt in H
           end; try lia.
Qed.

(** X10.  In every state the page reaches, each pending countdown holds a
    value between 1 and 30 and ticks every second; so the tick that is due
    writes a remaining time between 0 and 29 on the status line. *)
Theorem countdown_in_range (p : Page) (r : JS.Error + unit)
    (tr : list Event) (id : nat) (t : Timer) (c : Z) :
  let s := run (booted p r) tr in
  timers s !! id = Some t →
  callback t = CbCountdown c →
  1 ≤ c ≤ 30 ∧ period t = Some 1000 ∧
  (due t ≤ now s →
   statusText (page (step s (Fire id))) = msg_recording (c - 1)).
Proof.
  intros s.
  assert (countdowns_in_range s) as Hr.
  { subst s. induction tr as [|e tr IH] using rev_ind.
    - destruct p, r as [err|[]]; unfold countdowns_in_range, booted, initial;
        script; cbn; intros; lk; cbn in *; simplify_eq.
    - rewrite run_snoc. by apply countdowns_step. }
  intros Ht Hc.
  destruct (Hr id t c Ht Hc) as [Hc' Hp]. do 2 (split; [done|]).
  intros Hd. revert Ht Hd. generalize s. clear -Hc. intros s0 Ht Hd.
  destruct t as [d p' cb]. cbn in Hc, Hd. subst cb.
  open_state s0. rewrite Ht. cbn [due period callback].
  rewrite decide_True by done. script. cases; done.
Qed.

Lemma countdown_in_range_witness :
  statusText
    (page (step (run (booted blank_page (inr ()))
                   [ReadyState 4; Advance 500; Fire 1%nat;
                    FacesSettled (inr 1%nat); Click; Advance 1000])
             (Fire 2%nat)))
  = msg_recording (30 - 1).
Proof.
  refine (proj2 (proj2 (countdown_in_range blank_page (inr ())
                   [ReadyState 4; Advance 500; Fire 1%nat;
                    FacesSettled (inr 1%nat); Click; Advance 1000]
                   2%nat (mkTimer 1500 (Some 1000) (CbCountdown 30)) 30
                   _ eq_refl)) _).
  - by vm_compute.
  - by vm_compute.
Defined.

Lemma step_values_kept s e :
  is_rendering e = false →
  hrValue (page (step s e)) = hrValue (page s) ∧
  bpValue (page (step s e)) = bpValue (page s) ∧
  stressValue (page (step s e)) = stressValue (page s) ∧
  (resultsGrid_display (page (step s e)) = resultsGrid_display (page s) ∨
   resultsGrid_display (page (step s e)) = "none").
Proof. by_event s e; cbn in *; intros; simplify_eq; auto. Qed.

(** X11.  Results appear only through a rendered response: over events
    none of which settles a request with a success status and a JSON body,
    the three values stay as the markup has them, and a grid the markup
    does not show stays hidden. *)
Theorem results_need_a_response (p : Page) (r : JS.Error + unit)
    (tr : list Event) :
  Forall (λ e, is_rendering e = false) tr →
  resultsGrid_display p ≠ "flex" →
  let s := run (booted p r) tr in
  hrValue (page s) = hrValue p ∧
  bpValue (page s) = bpValue p ∧
  stressValue (page s) = stressValue p ∧
  resultsGrid_display (page s) ≠ "flex".
Proof.
  intros Htr Hp s. subst s.
  induction tr as [|e tr IH] using rev_ind.
  - destruct p, r as [err|[]]; done.
  - apply Forall_app in Htr as [Htr He%Forall_inv].
    destruct (IH Htr) as (Hh & Hb & Hs & Hg).
    destruct (step_values_kept (run (booted p r) tr) e He)
      as (Hh' & Hb' & Hs' & Hg').
    rewrite run_snoc, Hh', Hb', Hs'. do 3 (split; [done|]).
    destruct Hg' as [-> | ->]; done.
Qed.

Lemma results_need_a_response_witness :
  resultsGrid_display
    (page (run (booted blank_page (inr ()))
             [ReadyState 4; Click; Advance 3000; Fire 2%nat]))
  ≠ "flex".
Proof.
  refine (proj2 (proj2 (proj2 (results_need_a_response blank_page (inr ())
                   [ReadyState 4; Click; Advance 3000; Fire 2%nat] _ _)))).
  - repeat constructor.
  - discriminate.
Defined.
